(** * ms_identity_web: the authorization-code redirect handshake

    A shallow embedding of [IdentityWebPython] (ms_identity_web/__init__.py):
    the state check, the classification of provider errors, the code-for-token
    exchange, the processing of the token result and the silent refresh.

    Python's dynamically typed values are an inductive type [pyval]; the
    per-session [IdentityContextData] held by the adapter is the state of a
    small state-and-exception monad [Py]; the msal client is a parameter of
    the development.  Logging has no effect on Context Data or on the value
    returned and is left out; [require_context_adapter] only logs before it
    calls the wrapped method, so decorated methods are embedded as they are. *)

From Stdlib Require Import String Ascii Bool List.
From stdpp Require Import base option strings gmap.
Import ListNotations.
Open Scope string_scope.

Set Warnings "-register-all".

(** ** Python values *)

(** The values that flow through the orchestrator: [None], strings, lists,
    dicts keyed by strings, and token-cache objects.  A [PCache] stands for
    the reference to a [SerializableTokenCache]; what the cache holds belongs
    to msal. *)
Inductive pyval : Type :=
| PNone
| PStr (s : string)
| PList (l : list pyval)
| PDict (d : gmap string pyval)
| PCache (blob : string).

(** Truth value of a Python object: [None], the empty string and empty
    containers are false; an object without [__bool__] or [__len__] is true. *)
Definition truthy (v : pyval) : bool :=
  match v with
  | PNone => false
  | PStr s => negb (String.eqb s "")
  | PList l => match l with [] => false | _ :: _ => true end
  | PDict d => negb (Nat.eqb (size d) 0)
  | PCache _ => true
  end.

(** [a or b] *)
Definition py_or (a b : pyval) : pyval := if truthy a then a else b.

(** [x == s] for a string literal [s] *)
Definition py_eq_str (v : pyval) (s : string) : bool :=
  match v with
  | PStr t => String.eqb t s
  | _ => false
  end.

(** An optional string as a Python value ([None] when absent). *)
Definition of_opt (o : option string) : pyval :=
  match o with
  | Some s => PStr s
  | None => PNone
  end.

(** [a or b] on optional strings: the empty string counts as false. *)
Definition opt_truthy (o : option string) : bool := truthy (of_opt o).

Definition opt_or (a b : option string) : option string :=
  if opt_truthy a then a else b.

(** ** Exceptions and outcomes *)

(** Modelled from the spec: errors.py is not among the sources; the taxonomy
    of the error-handling section makes the security error, the generic
    provider error, the password-reset error and the token-exchange error
    four unrelated classes, so an [except] clause for one never catches
    another.  With them come the built-in exceptions the orchestrator can
    meet; [ExternalError] is any exception raised inside a collaborator (the
    msal client). *)
Inductive exn : Type :=
| AuthSecurityError (msg : string)
| OtherAuthError (msg : string)
| B2CPasswordError (msg : string)
| TokenExchangeError (msg : string)
| NotImplementedError (msg : string)
| IndexError
| TypeError
| AttributeError
| ExternalError (name : string).

Inductive Outcome (A : Type) : Type :=
| Return (a : A)
| Raise (e : exn).
Arguments Return {A} a.
Arguments Raise {A} e.

Definition is_raise {A : Type} (o : Outcome A) : bool :=
  match o with
  | Return _ => false
  | Raise _ => true
  end.


(** ** Context Data *)

(** Modelled from the spec: context.py is not among the sources; the record
    follows the data model (IdentityContextData), with the attribute names
    the orchestrator reads and writes.  Attribute assignment is a plain
    field update. *)
Record IdentityContextData : Type := mkContext {
  authenticated : bool;
  state : option string;
  nonce : option string;
  last_used_b2c_policy : option string;
  username : pyval;
  _id_token_claims : pyval;
  _access_token : pyval;
  token_cache : pyval;
  has_changed : bool
}.

Definition set_authenticated (b : bool) (c : IdentityContextData) :=
  mkContext b (state c) (nonce c) (last_used_b2c_policy c) (username c)
            (_id_token_claims c) (_access_token c) (token_cache c) (has_changed c).

Definition set_state (s : option string) (c : IdentityContextData) :=
  mkContext (authenticated c) s (nonce c) (last_used_b2c_policy c) (username c)
            (_id_token_claims c) (_access_token c) (token_cache c) (has_changed c).

Definition set_nonce (n : option string) (c : IdentityContextData) :=
  mkContext (authenticated c) (state c) n (last_used_b2c_policy c) (username c)
            (_id_token_claims c) (_access_token c) (token_cache c) (has_changed c).

Definition set_last_used_b2c_policy (p : option string) (c : IdentityContextData) :=
  mkContext (authenticated c) (state c) (nonce c) p (username c)
            (_id_token_claims c) (_access_token c) (token_cache c) (has_changed c).

Definition set_username (u : pyval) (c : IdentityContextData) :=
  mkContext (authenticated c) (state c) (nonce c) (last_used_b2c_policy c) u
            (_id_token_claims c) (_access_token c) (token_cache c) (has_changed c).

Definition set_id_token_claims (v : pyval) (c : IdentityContextData) :=
  mkContext (authenticated c) (state c) (nonce c) (last_used_b2c_policy c) (username c)
            v (_access_token c) (token_cache c) (has_changed c).

Definition set_access_token (v : pyval) (c : IdentityContextData) :=
  mkContext (authenticated c) (state c) (nonce c) (last_used_b2c_policy c) (username c)
            (_id_token_claims c) v (token_cache c) (has_changed c).

Definition set_token_cache (v : pyval) (c : IdentityContextData) :=
  mkContext (authenticated c) (state c) (nonce c) (last_used_b2c_policy c) (username c)
            (_id_token_claims c) (_access_token c) v (has_changed c).

Definition set_has_changed (b : bool) (c : IdentityContextData) :=
  mkContext (authenticated c) (state c) (nonce c) (last_used_b2c_policy c) (username c)
            (_id_token_claims c) (_access_token c) (token_cache c) b.

(** Modelled from the spec: the adapter's [clear_session] is not among the
    sources; it clears all session-bound Context Data, leaving every field
    at its default: not authenticated, user "anonymous", nothing pending and
    nothing cached.  The cleared record is marked dirty. *)
Definition clear_session (c : IdentityContextData) : IdentityContextData :=
  mkContext false None None None (PStr "anonymous") PNone PNone PNone true.

(** Every session-bound field is at its default. *)
Definition is_cleared (c : IdentityContextData) : Prop :=
  authenticated c = false /\ state c = None /\ nonce c = None /\
  last_used_b2c_policy c = None /\ username c = PStr "anonymous" /\
  _id_token_claims c = PNone /\ _access_token c = PNone /\ token_cache c = PNone.

(** ** The monad of the orchestrator's methods *)

(** A method reads and mutates the session's Context Data and either returns
    or raises; what it assigned before raising stays assigned. *)
Definition Py (A : Type) : Type :=
  IdentityContextData -> Outcome A * IdentityContextData.

Definition ret {A : Type} (a : A) : Py A := fun c => (Return a, c).

Definition raise {A : Type} (e : exn) : Py A := fun c => (Raise e, c).

Definition bind {A B : Type} (m : Py A) (k : A -> Py B) : Py B :=
  fun c =>
    match m c with
    | (Return a, c') => k a c'
    | (Raise e, c') => (Raise e, c')
    end.

Definition lift {A : Type} (o : Outcome A) : Py A := fun c => (o, c).

Definition gets {A : Type} (f : IdentityContextData -> A) : Py A :=
  fun c => (Return (f c), c).

Definition modify (f : IdentityContextData -> IdentityContextData) : Py unit :=
  fun c => (Return tt, f c).

(** [try: body except e: handler e] *)
Definition try_except {A : Type} (body : Py A) (handler : exn -> Py A) : Py A :=
  fun c =>
    match body c with
    | (Return a, c') => (Return a, c')
    | (Raise e, c') => handler e c'
    end.

Declare Scope py_scope.
Delimit Scope py_scope with py.
Notation "x <- m ;; k" := (bind m (fun x => k))
  (at level 100, m at next level, right associativity) : py_scope.
Notation "m ;;; k" := (bind m (fun _ => k))
  (at level 100, right associativity) : py_scope.
Open Scope py_scope.

(** ** Constants and configuration *)

(** The constants of constants.py, which is not among the sources. *)
Module Constants.

(** Modelled from the spec: the authorization code arrives in the request
    parameter [code]. *)
Definition ResponseType_CODE : string := "code".

(** Modelled from the spec: the provider's error code arrives in the request
    parameter [error]. *)
Definition AADErrorResponse_ERROR_CODE_PARAM_KEY : string := "error".

(** Modelled from the spec: the forgot-password scenario carries the error
    code AADB2C90118, the designated password-reset prefix. *)
Definition AADErrorResponse_B2C_FORGOT_PASSWORD_ERROR_CODE : string := "AADB2C90118".

(** Modelled from the spec: the name of the policy-based authority type. *)
Definition AuthorityType_B2C : string := "B2C".

(** Modelled from the spec: the [prompt] query parameter of the
    authorization URL. *)
Definition Prompt_PARAM_KEY : string := "prompt".

(** Modelled from the spec: the account-picker prompt. *)
Definition Prompt_SELECT_ACCOUNT : string := "select_account".

End Constants.
Import Constants.

(** Modelled from the spec: the configuration classes are not among the
    sources; the record holds the configuration the orchestrator consumes:
    the client's attribute dict and base authority, the authority type, the
    default and the password-reset policy, and the authorization-request
    settings, both as the attribute dict handed to msal and as the
    attributes read by name. *)
Record AADConfig : Type := mkConfig {
  client_dict : gmap string pyval;        (* aad_config.client.__dict__ *)
  client_authority : string;              (* aad_config.client.authority *)
  authority_type : string;                (* aad_config.type.authority_type *)
  b2c_susi : string;                      (* aad_config.b2c.susi *)
  b2c_password : string;                  (* aad_config.b2c.password *)
  auth_request_dict : gmap string pyval;  (* aad_config.auth_request.__dict__ *)
  auth_request_response_type : option string;
  auth_request_redirect_uri : option string;
  auth_request_scopes : list string
}.

(** What [process_auth_redirect] hands back: the caller's next action, or the
    redirect instruction the adapter makes for an absolute URL. *)
Inductive Response (A : Type) : Type :=
| Action (next_action : A)
| Redirect (url : string).
Arguments Action {A} next_action.
Arguments Redirect {A} url.

(** ** Collaborators *)

(** What the orchestrator relies on from outside the package: the msal
    client (its constructor, called with the keyword arguments collected by
    [_client_factory], and the four operations used; each may raise) and
    Python's [str] on a value that is not a string. *)
Record Collaborators (Client : Type) : Type := mkCollaborators {
  ConfidentialClientApplication : gmap string pyval -> Outcome Client;
  get_authorization_request_url : Client -> gmap string pyval -> Outcome string;
  acquire_token_by_authorization_code :
    Client -> option string -> list string -> option string -> option string ->
    Outcome (gmap string pyval);
  get_accounts : Client -> Outcome (list pyval);
  acquire_token_silent_with_error :
    Client -> gmap string pyval -> Outcome (option (gmap string pyval));
  py_repr : pyval -> string
}.
Arguments ConfidentialClientApplication {Client} _ _.
Arguments get_authorization_request_url {Client} _ _ _.
Arguments acquire_token_by_authorization_code {Client} _ _ _ _ _ _.
Arguments get_accounts {Client} _ _.
Arguments acquire_token_silent_with_error {Client} _ _ _.
Arguments py_repr {Client} _ _.

(** ** The orchestrator *)

Section IdentityWebPython.

Context {Client : Type}.
Variable env : Collaborators Client.
Variable aad_config : AADConfig.

(** A value inside an f-string. *)
Definition py_format (v : pyval) : string :=
  match v with
  | PStr s => s
  | PNone => "None"
  | _ => py_repr env v
  end.

Definition _client_factory (token_cache b2c_policy : pyval)
    (msal_client_kwargs : gmap string pyval) : Outcome Client :=
  let client_config := client_dict aad_config in
  let client_config :=
    <["authority" :=
        PStr (client_authority aad_config ++ py_format (py_or b2c_policy (PStr "")))]>
      client_config in
  let client_config :=
    if truthy token_cache
    then <["token_cache" := token_cache]> client_config
    else client_config in
  let client_config := msal_client_kwargs ∪ client_config in
  ConfidentialClientApplication env client_config.

Definition prepare_b2c_auth (auth_req_config_dict : gmap string pyval)
    (b2c_policy : option string) : Py (gmap string pyval * string) :=
  let '(auth_req_config_dict, b2c_policy) :=
    match b2c_policy with
    | Some p =>
        if negb (truthy (PStr p)) then (auth_req_config_dict, b2c_susi aad_config)
        else if negb (String.eqb p (b2c_susi aad_config)) &&
                match auth_req_config_dict !! Prompt_PARAM_KEY with
                | Some v => py_eq_str v Prompt_SELECT_ACCOUNT
                | None => false
                end
             then (delete Prompt_PARAM_KEY auth_req_config_dict, p)
             else (auth_req_config_dict, p)
    | None => (auth_req_config_dict, b2c_susi aad_config)
    end in
  modify (set_last_used_b2c_policy (Some b2c_policy)) ;;;
  ret (auth_req_config_dict, b2c_policy).

Definition get_auth_url (redirect_uri b2c_policy : option string)
    (token_cache : pyval) (msal_auth_url_kwargs : gmap string pyval) : Py string :=
  let auth_req_config := auth_request_dict aad_config in
  let auth_req_config := msal_auth_url_kwargs ∪ auth_req_config in
  let auth_req_config :=
    match redirect_uri with
    | Some r => if truthy (PStr r)
                then <["redirect_uri" := PStr r]> auth_req_config
                else auth_req_config
    | None => auth_req_config
    end in
  if String.eqb (authority_type aad_config) AuthorityType_B2C then
    p <- prepare_b2c_auth auth_req_config b2c_policy ;;
    client <- lift (_client_factory PNone (PStr (snd p)) ∅) ;;
    lift (get_authorization_request_url env client (fst p))
  else
    client <- lift (_client_factory PNone PNone ∅) ;;
    lift (get_authorization_request_url env client auth_req_config).

Definition remove_user : Py unit := modify clear_session.

Definition _verify_state (req_params : gmap string string) : Py unit :=
  let state_ := req_params !! "state" in
  session_state <- gets state ;;
  if match state_ with None => true | Some _ => false end
     || negb (bool_decide (session_state = state_))
  then raise (AuthSecurityError "Failed to match request state with session state")
  else modify (set_state None).

(** The call [self._client_factory(b2c_policy, token_cache)] is positional:
    the policy lands in the factory's first parameter and the cache in its
    second. *)
Definition _x_change_auth_code_for_token (code : option string)
    (token_cache : pyval) (redirect_uri : option string)
    : Py (gmap string pyval) :=
  id_context <- gets id ;;
  let b2c_policy :=
    if String.eqb (authority_type aad_config) AuthorityType_B2C
    then last_used_b2c_policy id_context
    else None in
  client <- lift (_client_factory (of_opt b2c_policy) token_cache ∅) ;;
  let redirect_uri :=
    opt_or (opt_or redirect_uri (auth_request_redirect_uri aad_config)) None in
  lift (acquire_token_by_authorization_code env client code
          (auth_request_scopes aad_config) redirect_uri (nonce id_context)).

(** [d.get(key, default)] on a value: only a dict has [get]. *)
Definition py_get (v : pyval) (key : string) (dflt : pyval) : Outcome pyval :=
  match v with
  | PDict d => Return (default dflt (d !! key))
  | _ => Raise AttributeError
  end.

Definition newline : string := String (ascii_of_nat 10) "".

Definition _process_result (result : gmap string pyval) (token_cache : pyval)
    : Py unit :=
  match result !! "error" with
  | None =>
      modify (set_authenticated true) ;;;
      match result !! "id_token_claims" with
      | Some claims =>
          modify (set_id_token_claims claims) ;;;
          name <- lift (py_get claims "name" (PStr "anonymous")) ;;
          modify (set_username name)
      | None => ret tt
      end ;;;
      match result !! "access_token" with
      | Some tok => modify (set_access_token tok)
      | None => ret tt
      end ;;;
      modify (set_has_changed true) ;;;
      modify (set_token_cache token_cache)
  | Some err =>
      raise (TokenExchangeError
               ("_process_result: auth failed: token request resulted in error"
                ++ newline ++ py_format err ++ ": "
                ++ py_format (default PNone (result !! "error_description"))))
  end.

(** The list of scopes as the Python list handed to msal. *)
Definition py_scopes (l : list string) : pyval := PList (map PStr l).

(** [l[0]] *)
Definition py_first (l : list pyval) : Outcome pyval :=
  match l with
  | x :: _ => Return x
  | [] => Raise IndexError
  end.

(** [account or client.get_accounts()[0]] *)
Definition chosen_account (client : Client) (account : pyval) : Outcome pyval :=
  if truthy account then Return account
  else match get_accounts env client with
       | Return accounts => py_first accounts
       | Raise e => Raise e
       end.

(** The keyword arguments of the silent acquisition: the caller's, then
    [scopes], then [account]. *)
Definition silent_options (scopes : pyval) (kwargs : gmap string pyval)
    (account : pyval) : gmap string pyval :=
  let silent_opts : gmap string pyval := ∅ in
  let silent_opts := kwargs ∪ silent_opts in
  let silent_opts :=
    <["scopes" := py_or scopes (py_scopes (auth_request_scopes aad_config))]>
      silent_opts in
  <["account" := account]> silent_opts.

(** The silent acquisition may return [None]; the membership test that
    opens [_process_result] then fails with a [TypeError]. *)
Definition acquire_token_silently (scopes account authority token_cache_ : pyval)
    (kwargs : gmap string pyval) : Py unit :=
  id_data <- gets id ;;
  let token_cache_ := py_or token_cache_ (token_cache id_data) in
  client <- lift (_client_factory token_cache_ PNone ∅) ;;
  account <- lift (chosen_account client account) ;;
  result <- lift (acquire_token_silent_with_error env client
                    (silent_options scopes kwargs account)) ;;
  match result with
  | Some result => _process_result result token_cache_
  | None => raise TypeError
  end.

Definition _parse_redirect_errors (req_params : gmap string string)
    : Outcome unit :=
  match req_params !! AADErrorResponse_ERROR_CODE_PARAM_KEY with
  | Some error_code =>
      if String.prefix AADErrorResponse_B2C_FORGOT_PASSWORD_ERROR_CODE error_code
      then Raise (B2CPasswordError "B2C password reset request")
      else Raise (OtherAuthError "Unknown error while parsing redirect")
  | None => Return tt
  end.

Definition _extract_auth_response_payload (req_params : gmap string string)
    (expected_response_type : string) : Outcome (option string) :=
  if String.eqb expected_response_type ResponseType_CODE
  then Return (req_params !! ResponseType_CODE)
  else Raise (NotImplementedError
                "Only 'code' response is currently supported by identity utils").

(** Modelled from the spec: the adapter is not among the sources; its
    redirect operation turns a URL into a redirect instruction. *)
Definition redirect_to_absolute_url {A : Type} (url : string) : Response A :=
  Redirect url.

(** [response_type or self.aad_config.auth_request.response_type or
    str(ResponseType.CODE)] *)
Definition resolved_response_type (response_type : option string) : string :=
  default ResponseType_CODE
    (opt_or (opt_or response_type (auth_request_response_type aad_config))
            (Some ResponseType_CODE)).

(** The body of the [try] statement: steps 1 to 5 in order. *)
Definition process_auth_redirect_body {A : Type}
    (req_params : gmap string string) (next_action : A)
    (redirect_uri response_type : option string) : Py (Response A) :=
  _verify_state req_params ;;;
  lift (_parse_redirect_errors req_params) ;;;
  let resp_type := resolved_response_type response_type in
  payload <- lift (_extract_auth_response_payload req_params resp_type) ;;
  cache <- gets token_cache ;;
  result <- (if String.eqb resp_type ResponseType_CODE
             then _x_change_auth_code_for_token payload cache redirect_uri
             else raise (NotImplementedError
                           ("response_type " ++ resp_type ++
                            " is not yet implemented by ms_identity_web_python"))) ;;
  _process_result result cache ;;;
  ret (Action next_action).

(** [req_params] is what the adapter's [get_request_params_as_dict] gave. *)
Definition process_auth_redirect {A : Type}
    (req_params : gmap string string) (next_action : A)
    (redirect_uri response_type : option string) : Py (Response A) :=
  try_except
    (process_auth_redirect_body req_params next_action redirect_uri response_type)
    (fun e =>
       match e with
       | AuthSecurityError _ => remove_user ;;; ret (Action next_action)
       | OtherAuthError _ => remove_user ;;; ret (Action next_action)
       | B2CPasswordError _ =>
           remove_user ;;;
           pw_reset_url <- get_auth_url None None PNone
                             {["policy" := PStr (b2c_password aad_config)]} ;;
           ret (redirect_to_absolute_url pw_reset_url)
       | TokenExchangeError _ => remove_user ;;; ret (Action next_action)
       | _ => remove_user ;;; ret (Action next_action)
       end).

End IdentityWebPython.

(** ** The rest of the orchestrator *)

(** Modelled from the spec: the authorization request carries the
    anti-forgery token in the query parameter [state]. *)
Definition RequestParameter_STATE : string := "state".

(** Modelled from the spec: the authorization request carries the replay
    token in the query parameter [nonce]. *)
Definition RequestParameter_NONCE : string := "nonce".

(** [uuid4] is the string of the fresh UUID the call draws; the request
    dict is updated in place, so it is returned beside the state. *)
Definition _generate_and_append_state_to_context_and_request (uuid4 : string)
    (req_param_dict : gmap string pyval) : Py (gmap string pyval * string) :=
  let state_ := uuid4 in
  let req_param_dict := <[RequestParameter_STATE := PStr state_]> req_param_dict in
  modify (set_state (Some state_)) ;;;
  ret (req_param_dict, state_).

Definition _generate_and_append_nonce_to_context_and_request (uuid4 : string)
    (req_param_dict : gmap string pyval) : Py (gmap string pyval * string) :=
  let nonce_ := uuid4 in
  let req_param_dict := <[RequestParameter_NONCE := PStr nonce_]> req_param_dict in
  modify (set_nonce (Some nonce_)) ;;;
  ret (req_param_dict, nonce_).

Definition _verify_nonce (req_params : gmap string string) : Py unit :=
  let nonce_ := req_params !! "nonce" in
  session_nonce <- gets nonce ;;
  if match nonce_ with None => true | Some _ => false end
     || negb (bool_decide (session_nonce = nonce_))
  then raise (AuthSecurityError "Failed to match ID token nonce with session nonce")
  else modify (set_nonce None).

(** Modelled from the spec: the logout URL takes the optional query
    parameter [post_logout_redirect_uri]. *)
Definition SignOut_REDIRECT_PARAM_KEY : string := "post_logout_redirect_uri".

(** [SignOut_ENDPOINT] is the logout path of constants.py, which is not
    among the sources. *)
Definition sign_out {A : Type} (SignOut_ENDPOINT : string) (aad_config : AADConfig)
    (post_sign_out_url username_ : option string) : Py (Response A) :=
  let authority_type_ := authority_type aad_config in
  let sign_out_url := client_authority aad_config in
  let sign_out_url :=
    if String.eqb authority_type_ AuthorityType_B2C
    then sign_out_url ++ b2c_susi aad_config ++ SignOut_ENDPOINT
    else sign_out_url ++ SignOut_ENDPOINT in
  let sign_out_url :=
    match post_sign_out_url with
    | Some u => if truthy (PStr u)
                then sign_out_url ++ "?" ++ SignOut_REDIRECT_PARAM_KEY ++ "=" ++ u
                else sign_out_url
    | None => sign_out_url
    end in
  ret (redirect_to_absolute_url sign_out_url).

(** Modelled from the spec: the error of the login-required guard, raised
    when Context Data is not authenticated. *)
Inductive GuardError : Type := NotAuthenticatedError.

(** The route [f] wrapped by the guard, called with [args]: the guard raises
    or hands back what the route returns. *)
Definition login_required {X B : Type} (f : X -> B) (args : X)
    (ctx : IdentityContextData) : GuardError + B :=
  if negb (authenticated ctx) then inl NotAuthenticatedError
  else inr (f args).

(** ** The Context Data a successful result leaves *)

(** What the claims and the user name become. *)
Definition with_claims (result : gmap string pyval) (ctx : IdentityContextData)
    : IdentityContextData :=
  match result !! "id_token_claims" with
  | Some (PDict d) =>
      set_username (default (PStr "anonymous") (d !! "name"))
        (set_id_token_claims (PDict d) ctx)
  | Some claims => set_id_token_claims claims ctx
  | None => ctx
  end.

(** What the access token becomes. *)
Definition with_access_token (result : gmap string pyval)
    (ctx : IdentityContextData) : IdentityContextData :=
  match result !! "access_token" with
  | Some tok => set_access_token tok ctx
  | None => ctx
  end.

(** ** Test doubles and scenarios *)

Module Mock.

(** The authority a client was built with. *)
Definition authority_of (client : gmap string pyval) : string :=
  match client !! "authority" with
  | Some (PStr a) => a
  | _ => ""
  end.

(** The token result of the first end-to-end scenario. *)
Definition token_result : gmap string pyval :=
  {[ "access_token" := PStr "tok";
     "id_token_claims" := PDict {[ "name" := PStr "alice" ]} ]}.

(** The provider's answer when it has no account to refresh. *)
Definition no_account : gmap string pyval :=
  {[ "error" := PStr "no_account";
     "error_description" := PStr "no account in the token cache" ]}.

(** A mock token client.  A client is the keyword arguments it was built
    with; the authorization URL is the authority followed by the
    authorization endpoint; the code is redeemed for [token_result]; no
    account is cached and a silent acquisition answers [no_account]. *)
Definition client : Collaborators (gmap string pyval) :=
  mkCollaborators (gmap string pyval)
    Return
    (fun c _ => Return (authority_of c ++ "/oauth2/v2.0/authorize"))
    (fun _ _ _ _ _ => Return token_result)
    (fun _ => Return [])
    (fun _ _ => Return (Some no_account))
    (fun _ => "<object>").

(** A spy: redeeming a code answers with the keyword arguments the client
    was built with. *)
Definition spy : Collaborators (gmap string pyval) :=
  mkCollaborators (gmap string pyval)
    Return
    (fun c _ => Return (authority_of c ++ "/oauth2/v2.0/authorize"))
    (fun c _ _ _ _ => Return c)
    (fun _ => Return [])
    (fun _ _ => Return (Some no_account))
    (fun _ => "<object>").

(** A client whose authority cannot be reached: the constructor raises. *)
Definition unreachable : Collaborators (gmap string pyval) :=
  mkCollaborators (gmap string pyval)
    (fun _ => Raise (ExternalError "ValueError"))
    (fun c _ => Return (authority_of c ++ "/oauth2/v2.0/authorize"))
    (fun _ _ _ _ _ => Return token_result)
    (fun _ => Return [])
    (fun _ _ => Return (Some no_account))
    (fun _ => "<object>").

Definition scopes : list string := ["User.Read"].

(** A standard (not policy-based) configuration. *)
Definition aad : AADConfig :=
  mkConfig {[ "client_id" := PStr "app" ]} "https://login.example.com/tenant"
           "AAD" "/b2c_1_susi" "/b2c_1_reset"
           {[ "scopes" := PList [PStr "User.Read"] ]} None None scopes.

(** A policy-based configuration. *)
Definition b2c : AADConfig :=
  mkConfig {[ "client_id" := PStr "app" ]} "https://login.example.com/tenant"
           AuthorityType_B2C "/b2c_1_susi" "/b2c_1_reset"
           {[ "scopes" := PList [PStr "User.Read"] ]} None None scopes.

(** A fresh session with one outstanding authorization request. *)
Definition ctx_s1 : IdentityContextData :=
  mkContext false (Some "s1") (Some "n1") None (PStr "anonymous")
            PNone PNone PNone false.

(** The same session, the request having been started under the default
    sign-in policy. *)
Definition ctx_susi : IdentityContextData :=
  mkContext false (Some "s1") (Some "n1") (Some "/b2c_1_susi") (PStr "anonymous")
            PNone PNone PNone false.

(** A signed-in session holding a token cache. *)
Definition ctx_signed_in : IdentityContextData :=
  mkContext true None None None (PStr "alice")
            (PDict {[ "name" := PStr "alice" ]}) (PStr "tok") (PCache "cache") false.

Definition params_code : gmap string string :=
  {[ "state" := "s1"; "code" := "abc" ]}.

Definition params_wrong_state : gmap string string :=
  {[ "state" := "wrong" ]}.

Definition params_forgot_password : gmap string string :=
  {[ "state" := "s1"; "error" := "AADB2C90118" ]}.

Definition params_access_denied : gmap string string :=
  {[ "state" := "s1"; "error" := "access_denied" ]}.

(** The provider's answer to a code it does not accept. *)
Definition invalid_grant : gmap string pyval :=
  {[ "error" := PStr "invalid_grant";
     "error_description" := PStr "the code has expired" ]}.

(** A client whose provider rejects every code. *)
Definition rejecting : Collaborators (gmap string pyval) :=
  mkCollaborators (gmap string pyval)
    Return
    (fun c _ => Return (authority_of c ++ "/oauth2/v2.0/authorize"))
    (fun _ _ _ _ _ => Return invalid_grant)
    (fun _ => Return [])
    (fun _ _ => Return (Some no_account))
    (fun _ => "<object>").

(** A client whose silent acquisition succeeds or finds nothing. *)
Definition silent (answer : option (gmap string pyval))
    : Collaborators (gmap string pyval) :=
  mkCollaborators (gmap string pyval)
    Return
    (fun c _ => Return (authority_of c ++ "/oauth2/v2.0/authorize"))
    (fun _ _ _ _ _ => Return token_result)
    (fun _ => Return [])
    (fun _ _ => Return answer)
    (fun _ => "<object>").

(** The account of the signed-in user. *)
Definition alice : pyval := PDict {[ "username" := PStr "alice" ]}.

(** A policy-based configuration that names a redirect URI. *)
Definition b2c_redirect : AADConfig :=
  mkConfig {[ "client_id" := PStr "app" ]} "https://login.example.com/tenant"
           AuthorityType_B2C "/b2c_1_susi" "/b2c_1_reset"
           {[ "scopes" := PList [PStr "User.Read"];
              "redirect_uri" := PStr "https://app.example.com/configured" ]}
           None (Some "https://app.example.com/configured") scopes.

End Mock.

(** * Properties *)

Ltac py_unfold :=
  unfold process_auth_redirect, process_auth_redirect_body, remove_user,
    _verify_state, try_except, bind, ret, raise, lift, gets, modify in *.

(** ** State verification *)

Lemma verify_state_match (req_params : gmap string string)
    (ctx : IdentityContextData) (s : string) :
  req_params !! "state" = Some s -> state ctx = Some s ->
  _verify_state req_params ctx = (Return tt, set_state None ctx).
Proof.
  intros Hreq Hctx. py_unfold. rewrite Hreq, Hctx.
  rewrite bool_decide_eq_true_2 by reflexivity. reflexivity.
Qed.

Lemma verify_state_mismatch (req_params : gmap string string)
    (ctx : IdentityContextData) :
  req_params !! "state" = None \/ req_params !! "state" <> state ctx ->
  _verify_state req_params ctx =
    (Raise (AuthSecurityError "Failed to match request state with session state"), ctx).
Proof.
  intros H. py_unfold. destruct (req_params !! "state") as [s|] eqn:Hreq.
  - destruct H as [H|H]; [discriminate|].
    rewrite bool_decide_eq_false_2 by (intros E; apply H; symmetry; exact E).
    reflexivity.
  - reflexivity.
Qed.

Lemma verify_state_inv (req_params : gmap string string)
    (ctx : IdentityContextData) :
  fst (_verify_state req_params ctx) = Return tt ->
  exists s, req_params !! "state" = Some s /\ state ctx = Some s.
Proof.
  py_unfold. destruct (req_params !! "state") as [s|] eqn:Hreq; cbn.
  - case_bool_decide as E; cbn; [|discriminate].
    intros _. exists s. split; [reflexivity | exact E].
  - discriminate.
Qed.

Lemma clear_session_is_cleared (ctx : IdentityContextData) :
  is_cleared (clear_session ctx).
Proof. repeat split. Qed.

Section Handshake.

Context {Client : Type} (env : Collaborators Client) (aad_config : AADConfig).
Context {A : Type}.

(** A handshake whose state check fails ends in the security handler. *)
Lemma redirect_state_mismatch (req_params : gmap string string) (next_action : A)
    (redirect_uri response_type : option string) (ctx : IdentityContextData) :
  req_params !! "state" = None \/ req_params !! "state" <> state ctx ->
  process_auth_redirect env aad_config req_params next_action
      redirect_uri response_type ctx
  = (Return (Action next_action), clear_session ctx).
Proof.
  intros H. unfold process_auth_redirect, try_except, process_auth_redirect_body.
  unfold bind at 1. rewrite (verify_state_mismatch _ _ H).
  reflexivity.
Qed.

(** C1: when the request's [state] is present and equal to the stored
    state, state verification succeeds and the stored state is absent
    afterwards; when it is absent or differs, the security error is raised,
    and [process_auth_redirect] returns the next action it was given with
    Context Data fully cleared. *)
Theorem state_verification_single_use (req_params : gmap string string)
    (next_action : A) (redirect_uri response_type : option string)
    (ctx : IdentityContextData) :
  (forall s, req_params !! "state" = Some s -> state ctx = Some s ->
     fst (_verify_state req_params ctx) = Return tt /\
     state (snd (_verify_state req_params ctx)) = None) /\
  (req_params !! "state" = None \/ req_params !! "state" <> state ctx ->
     (exists msg, fst (_verify_state req_params ctx) = Raise (AuthSecurityError msg)) /\
     fst (process_auth_redirect env aad_config req_params next_action
            redirect_uri response_type ctx) = Return (Action next_action) /\
     is_cleared (snd (process_auth_redirect env aad_config req_params next_action
                        redirect_uri response_type ctx))).
Proof.
  split.
  - intros s Hreq Hctx. rewrite (verify_state_match _ _ _ Hreq Hctx). split; reflexivity.
  - intros H. rewrite (verify_state_mismatch _ _ H), (redirect_state_mismatch _ _ _ _ _ H).
    split; [eexists; reflexivity|]. split; [reflexivity|].
    apply clear_session_is_cleared.
Qed.

End Handshake.

(** C8: with no stored state every request fails the state check, also one
    that carries no [state]; the check succeeds only when request state and
    stored state are both present and equal; and after a success the same
    stored state never passes again. *)
Theorem verify_state_needs_stored_state (req_params : gmap string string)
    (ctx : IdentityContextData) :
  (state ctx = None ->
     exists msg, fst (_verify_state req_params ctx) = Raise (AuthSecurityError msg)) /\
  (fst (_verify_state req_params ctx) = Return tt ->
     (exists s, req_params !! "state" = Some s /\ state ctx = Some s) /\
     forall req_params' : gmap string string,
       exists msg,
         fst (_verify_state req_params' (snd (_verify_state req_params ctx)))
         = Raise (AuthSecurityError msg)).
Proof.
  assert (Hnone : forall (r : gmap string string) c, state c = None ->
            exists msg, fst (_verify_state r c) = Raise (AuthSecurityError msg)).
  { intros r c Hc. rewrite verify_state_mismatch; [eexists; reflexivity|].
    rewrite Hc. destruct (r !! "state"); [right; discriminate | left; reflexivity]. }
  split; [apply Hnone|].
  intros Hok. destruct (verify_state_inv _ _ Hok) as (s & Hreq & Hctx).
  split; [exists s; split; assumption|].
  intros r. apply Hnone. rewrite (verify_state_match _ _ _ Hreq Hctx). reflexivity.
Qed.

(** ** Processing the token result *)

Section ProcessResult.

Context {Client : Type} (env : Collaborators Client).

(** A result without [error] whose claims, when present, are a dict. *)
Lemma process_result_success (result : gmap string pyval) (token_cache_ : pyval)
    (ctx : IdentityContextData) :
  result !! "error" = None ->
  (forall claims, result !! "id_token_claims" = Some claims ->
     exists d, claims = PDict d) ->
  _process_result env result token_cache_ ctx =
    (Return tt,
     set_token_cache token_cache_
       (set_has_changed true
          (with_access_token result
             (with_claims result (set_authenticated true ctx))))).
Proof.
  intros Herr Hclaims. unfold _process_result, with_claims, with_access_token.
  rewrite Herr.
  destruct (result !! "id_token_claims") as [claims|].
  - destruct (Hclaims claims eq_refl) as [d ->].
    destruct (result !! "access_token"); reflexivity.
  - destruct (result !! "access_token"); reflexivity.
Qed.

Lemma process_result_error (result : gmap string pyval) (token_cache_ : pyval)
    (ctx : IdentityContextData) (err : pyval) :
  result !! "error" = Some err ->
  _process_result env result token_cache_ ctx =
    (Raise (TokenExchangeError
              ("_process_result: auth failed: token request resulted in error"
               ++ newline ++ py_format env err ++ ": "
               ++ py_format env (default PNone (result !! "error_description")))),
     ctx).
Proof. intros Herr. unfold _process_result. rewrite Herr. reflexivity. Qed.

(** C9: a result without the key [error] always leaves [authenticated]
    set; when it has neither [id_token_claims] nor [access_token] the call
    returns, the user name and the access token keep their values, the
    dirty flag is set and the token cache is stored back. *)
Theorem process_result_marks_authenticated (result : gmap string pyval)
    (token_cache_ : pyval) (ctx : IdentityContextData) :
  result !! "error" = None ->
  authenticated (snd (_process_result env result token_cache_ ctx)) = true /\
  (result !! "id_token_claims" = None -> result !! "access_token" = None ->
     let ctx' := snd (_process_result env result token_cache_ ctx) in
     fst (_process_result env result token_cache_ ctx) = Return tt /\
     authenticated ctx' = true /\
     username ctx' = username ctx /\
     _access_token ctx' = _access_token ctx /\
     has_changed ctx' = true /\
     token_cache ctx' = token_cache_).
Proof.
  intros Herr. split.
  - unfold _process_result. rewrite Herr.
    destruct (result !! "id_token_claims") as [claims|];
      destruct (result !! "access_token"); try destruct claims; reflexivity.
  - intros Hc Ht. unfold _process_result. rewrite Herr, Hc, Ht. cbn.
    repeat split.
Qed.

End ProcessResult.

(** ** Signing the user out locally *)

(** C10: calling [remove_user] a second time leaves Context Data as the
    first call left it, and both calls return. *)
Theorem remove_user_idempotent (ctx : IdentityContextData) :
  remove_user (snd (remove_user ctx)) = remove_user ctx /\
  fst (remove_user ctx) = Return tt /\
  is_cleared (snd (remove_user ctx)).
Proof. repeat split. Qed.

(** ** The redirect handshake *)

Lemma bind_returns {X Y : Type} (m : Py X) (k : X -> Py Y)
    (c c' : IdentityContextData) (y : Y) :
  bind m k c = (Return y, c') ->
  exists x c1, m c = (Return x, c1) /\ k x c1 = (Return y, c').
Proof.
  unfold bind. destruct (m c) as [[x|e] c1]; [|discriminate].
  intros H. exists x, c1. split; [reflexivity | exact H].
Qed.

Lemma parse_redirect_errors_spec (req_params : gmap string string) :
  _parse_redirect_errors req_params =
    match req_params !! "error" with
    | Some error_code =>
        if String.prefix "AADB2C90118" error_code
        then Raise (B2CPasswordError "B2C password reset request")
        else Raise (OtherAuthError "Unknown error while parsing redirect")
    | None => Return tt
    end.
Proof. reflexivity. Qed.

Section Redirect.

Context {Client : Type} (env : Collaborators Client) (aad_config : AADConfig).
Context {A : Type}.

(** The exchange reads Context Data and never writes it. *)
Lemma x_change_keeps_context (code : option string) (cache : pyval)
    (redirect_uri : option string) (ctx : IdentityContextData) :
  snd (_x_change_auth_code_for_token env aad_config code cache redirect_uri ctx) = ctx.
Proof.
  unfold _x_change_auth_code_for_token, bind, gets, lift.
  destruct (_client_factory _ _ _ _ _); reflexivity.
Qed.

(** The [try] body returns nothing but the next action. *)
Lemma body_returns_next_action (req_params : gmap string string) (next_action : A)
    (redirect_uri response_type : option string) (ctx ctx' : IdentityContextData)
    (r : Response A) :
  process_auth_redirect_body env aad_config req_params next_action
      redirect_uri response_type ctx = (Return r, ctx') ->
  r = Action next_action.
Proof.
  unfold process_auth_redirect_body. intros H.
  repeat (apply bind_returns in H; destruct H as (? & ? & _ & H)).
  unfold ret in H. congruence.
Qed.

(** The handshake once the state check has passed. *)
Lemma redirect_after_state_check (req_params : gmap string string) (next_action : A)
    (redirect_uri response_type : option string) (ctx : IdentityContextData)
    (s : string) :
  req_params !! "state" = Some s -> state ctx = Some s ->
  process_auth_redirect_body env aad_config req_params next_action
      redirect_uri response_type ctx
  = (lift (_parse_redirect_errors req_params) ;;;
     let resp_type := resolved_response_type aad_config response_type in
     payload <- lift (_extract_auth_response_payload req_params resp_type) ;;
     cache <- gets token_cache ;;
     result <- (if String.eqb resp_type ResponseType_CODE
                then _x_change_auth_code_for_token env aad_config payload cache
                       redirect_uri
                else raise (NotImplementedError
                              ("response_type " ++ resp_type ++
                               " is not yet implemented by ms_identity_web_python"))) ;;
     _process_result env result cache ;;;
     ret (Action next_action)) (set_state None ctx).
Proof.
  intros Hreq Hctx. unfold process_auth_redirect_body.
  unfold bind at 1. rewrite (verify_state_match _ _ _ Hreq Hctx). reflexivity.
Qed.

(** C6: provider errors are classified by prefix match on the error code
    only: whatever else a request carries, an error code that begins with
    the forgot-password code raises the password-reset error and any other
    error code raises the generic provider error.  A request that passes the
    state check and carries an error code without that prefix raises the
    generic provider error; the session is cleared and the next action is
    returned as given. *)
Theorem other_provider_error_clears_session (req_params : gmap string string)
    (next_action : A) (redirect_uri response_type : option string)
    (ctx : IdentityContextData) :
  (forall (req_params' : gmap string string) (error_code : string),
     req_params' !! "error" = Some error_code ->
     _parse_redirect_errors req_params'
     = if String.prefix AADErrorResponse_B2C_FORGOT_PASSWORD_ERROR_CODE error_code
       then Raise (B2CPasswordError "B2C password reset request")
       else Raise (OtherAuthError "Unknown error while parsing redirect")) /\
  (forall s error_code : string,
     req_params !! "state" = Some s -> state ctx = Some s ->
     req_params !! "error" = Some error_code ->
     String.prefix AADErrorResponse_B2C_FORGOT_PASSWORD_ERROR_CODE error_code = false ->
     (exists msg, _parse_redirect_errors req_params = Raise (OtherAuthError msg)) /\
     (exists msg, fst (process_auth_redirect_body env aad_config req_params next_action
                         redirect_uri response_type ctx) = Raise (OtherAuthError msg)) /\
     fst (process_auth_redirect env aad_config req_params next_action
            redirect_uri response_type ctx) = Return (Action next_action) /\
     is_cleared (snd (process_auth_redirect env aad_config req_params next_action
                        redirect_uri response_type ctx)) /\
     (forall req_params' : gmap string string,
        req_params' !! "error" = Some error_code ->
        _parse_redirect_errors req_params' = _parse_redirect_errors req_params)).
Proof.
  split.
  { intros req' code Herr'. rewrite parse_redirect_errors_spec, Herr'. reflexivity. }
  intros s error_code Hreq Hctx Herr Hpre.
  assert (Hparse : _parse_redirect_errors req_params
                   = Raise (OtherAuthError "Unknown error while parsing redirect")).
  { rewrite parse_redirect_errors_spec, Herr.
    unfold AADErrorResponse_B2C_FORGOT_PASSWORD_ERROR_CODE in Hpre.
    rewrite Hpre. reflexivity. }
  assert (Hbody : process_auth_redirect_body env aad_config req_params next_action
                    redirect_uri response_type ctx
                  = (Raise (OtherAuthError "Unknown error while parsing redirect"),
                     set_state None ctx)).
  { rewrite (redirect_after_state_check _ _ _ _ _ _ Hreq Hctx).
    unfold bind at 1. rewrite Hparse. reflexivity. }
  split; [eexists; exact Hparse|].
  split; [rewrite Hbody; eexists; reflexivity|].
  unfold process_auth_redirect, try_except. rewrite Hbody.
  split; [reflexivity|]. split; [apply clear_session_is_cleared|].
  intros req' Herr'. rewrite !parse_redirect_errors_spec, Herr, Herr'. reflexivity.
Qed.

(** C4: when the state check passes, the request carries no provider
    error, the response type is the authorization-code type and the
    exchange returns a result without [error] whose claims and access token
    are present, [process_auth_redirect] returns the next action it was
    given and leaves Context Data authenticated, with the user name taken
    from the [name] claim, the access token of the result, the dirty flag
    set and the token cache stored back. *)
Theorem redirect_success (req_params : gmap string string) (next_action : A)
    (redirect_uri response_type : option string) (ctx : IdentityContextData)
    (s : string) (result claims : gmap string pyval) (tok : pyval) :
  req_params !! "state" = Some s -> state ctx = Some s ->
  req_params !! "error" = None ->
  resolved_response_type aad_config response_type = ResponseType_CODE ->
  fst (_x_change_auth_code_for_token env aad_config (req_params !! "code")
         (token_cache ctx) redirect_uri (set_state None ctx)) = Return result ->
  result !! "error" = None ->
  result !! "id_token_claims" = Some (PDict claims) ->
  result !! "access_token" = Some tok ->
  let out := process_auth_redirect env aad_config req_params next_action
               redirect_uri response_type ctx in
  fst out = Return (Action next_action) /\
  authenticated (snd out) = true /\
  username (snd out) = default (PStr "anonymous") (claims !! "name") /\
  _id_token_claims (snd out) = PDict claims /\
  _access_token (snd out) = tok /\
  has_changed (snd out) = true /\
  token_cache (snd out) = token_cache ctx /\
  state (snd out) = None.
Proof.
  intros Hreq Hctx Herr Hrt Hx Hrerr Hclaims Htok out.
  assert (Hout : out =
            (Return (Action next_action),
             set_token_cache (token_cache ctx)
               (set_has_changed true
                  (with_access_token result
                     (with_claims result
                        (set_authenticated true (set_state None ctx))))))).
  { subst out. unfold process_auth_redirect, try_except.
    rewrite (redirect_after_state_check _ _ _ _ _ _ Hreq Hctx).
    unfold bind at 1. rewrite parse_redirect_errors_spec, Herr.
    cbv beta iota zeta delta [lift].
    unfold _extract_auth_response_payload. rewrite Hrt, String.eqb_refl.
    unfold bind at 1. unfold bind at 1. unfold gets at 1.
    unfold bind at 1.
    change (token_cache (set_state None ctx)) with (token_cache ctx).
    change (req_params !! ResponseType_CODE) with (req_params !! "code").
    pose proof (x_change_keeps_context (req_params !! "code") (token_cache ctx)
                  redirect_uri (set_state None ctx)) as Hkeep.
    destruct (_x_change_auth_code_for_token env aad_config (req_params !! "code")
                (token_cache ctx) redirect_uri (set_state None ctx)) as [o c1].
    cbn in Hx, Hkeep. subst o c1.
    unfold bind at 1.
    rewrite process_result_success; [reflexivity | exact Hrerr |].
    intros cl Hcl. rewrite Hclaims in Hcl. injection Hcl as <-. eexists; reflexivity. }
  rewrite Hout. unfold with_claims, with_access_token. rewrite Hclaims, Htok.
  repeat split.
Qed.

(** An exception that is not the password-reset error ends in a handler
    that clears the session and falls through to the final [return]. *)
Lemma redirect_handles (req_params : gmap string string) (next_action : A)
    (redirect_uri response_type : option string) (ctx ctx' : IdentityContextData)
    (e : exn) :
  process_auth_redirect_body env aad_config req_params next_action
      redirect_uri response_type ctx = (Raise e, ctx') ->
  (forall msg, e <> B2CPasswordError msg) ->
  process_auth_redirect env aad_config req_params next_action
      redirect_uri response_type ctx
  = (Return (Action next_action), clear_session ctx').
Proof.
  intros Hbody Hne. unfold process_auth_redirect, try_except. rewrite Hbody.
  destruct e; try reflexivity. exfalso. eapply Hne. reflexivity.
Qed.

(** The password-reset handler: clear the session, then build the
    authorization URL and redirect to it. *)
Lemma redirect_password_reset (req_params : gmap string string) (next_action : A)
    (redirect_uri response_type : option string) (ctx ctx' : IdentityContextData)
    (msg : string) :
  process_auth_redirect_body env aad_config req_params next_action
      redirect_uri response_type ctx = (Raise (B2CPasswordError msg), ctx') ->
  process_auth_redirect env aad_config req_params next_action
      redirect_uri response_type ctx
  = (pw_reset_url <- get_auth_url env aad_config None None PNone
                       {["policy" := PStr (b2c_password aad_config)]} ;;
     ret (redirect_to_absolute_url pw_reset_url)) (clear_session ctx).
Proof.
  intros Hbody. unfold process_auth_redirect, try_except. rewrite Hbody.
  reflexivity.
Qed.

(** C5 (amended): every exception of the [try] body is caught.  Unless the
    body raised the password-reset error, [process_auth_redirect] returns
    the next action it was given, whether the body returned or raised, and
    whatever the client does; after a password-reset error, and only then,
    it returns a redirect instruction, provided the authorization URL of
    that handler can be built. *)
Theorem redirect_catches_body_errors (req_params : gmap string string)
    (next_action : A) (redirect_uri response_type : option string)
    (ctx : IdentityContextData) :
  let body := process_auth_redirect_body env aad_config req_params next_action
                redirect_uri response_type ctx in
  let out := process_auth_redirect env aad_config req_params next_action
               redirect_uri response_type ctx in
  ((forall msg, fst body <> Raise (B2CPasswordError msg)) ->
   fst out = Return (Action next_action)) /\
  (forall msg, fst body = Raise (B2CPasswordError msg) ->
     is_raise (fst (get_auth_url env aad_config None None PNone
                      {["policy" := PStr (b2c_password aad_config)]}
                      (clear_session ctx))) = false ->
     exists url, fst out = Return (Redirect url)) /\
  (forall url, fst out = Return (Redirect url) ->
     exists msg, fst body = Raise (B2CPasswordError msg)).
Proof.
  intros body out. subst body out.
  destruct (process_auth_redirect_body env aad_config req_params next_action
              redirect_uri response_type ctx) as [[r|e] ctx'] eqn:Hbody.
  - assert (Hout : process_auth_redirect env aad_config req_params next_action
                     redirect_uri response_type ctx
                   = (Return (Action next_action), ctx')).
    { unfold process_auth_redirect, try_except. rewrite Hbody.
      rewrite (body_returns_next_action _ _ _ _ _ _ _ Hbody). reflexivity. }
    rewrite Hout. cbn [fst].
    split; [intros _; reflexivity|].
    split; [intros msg H; discriminate H | intros url H; discriminate H].
  - assert (Hother : (forall msg, e <> B2CPasswordError msg) ->
                     process_auth_redirect env aad_config req_params next_action
                       redirect_uri response_type ctx
                     = (Return (Action next_action), clear_session ctx'))
      by (intros Hne; exact (redirect_handles _ _ _ _ _ _ _ Hbody Hne)).
    cbn [fst].
    destruct e as [m|m|m|m|m| | | |n];
      try (rewrite Hother by (intros ? ?; discriminate); cbn [fst];
           split; [intros _; reflexivity|];
           split; [intros msg H; discriminate H | intros url H; discriminate H]).
    clear Hother. rewrite (redirect_password_reset _ _ _ _ _ _ _ Hbody).
    unfold bind, ret.
    destruct (get_auth_url env aad_config None None PNone
                {["policy" := PStr (b2c_password aad_config)]} (clear_session ctx))
      as [[url|e] c2]; cbn [fst].
    + split; [intros Hne; exfalso; exact (Hne m eq_refl)|].
      split; [intros msg _ _; exists url; reflexivity|].
      intros url' _. exists m. reflexivity.
    + split; [intros Hne; exfalso; exact (Hne m eq_refl)|].
      split; [intros msg _ Hurl; discriminate Hurl|].
      intros url' H. discriminate H.
Qed.

End Redirect.

(** ** Silent acquisition *)

Section Silent.

Context {Client : Type} (env : Collaborators Client) (aad_config : AADConfig).

(** The silent acquisition once the client is built. *)
Lemma acquire_token_silently_unfold (scopes account authority token_cache_ : pyval)
    (kwargs : gmap string pyval) (ctx : IdentityContextData) (client : Client) :
  _client_factory env aad_config (py_or token_cache_ (token_cache ctx)) PNone ∅
    = Return client ->
  acquire_token_silently env aad_config scopes account authority token_cache_ kwargs ctx
  = match chosen_account env client account with
    | Return acc =>
        match acquire_token_silent_with_error env client
                (silent_options aad_config scopes kwargs acc) with
        | Return (Some result) =>
            _process_result env result (py_or token_cache_ (token_cache ctx)) ctx
        | Return None => (Raise TypeError, ctx)
        | Raise e => (Raise e, ctx)
        end
    | Raise e => (Raise e, ctx)
    end.
Proof.
  intros Hclient. unfold acquire_token_silently, bind, gets, lift, id, raise.
  rewrite Hclient.
  destruct (chosen_account env client account) as [acc|e]; [|reflexivity].
  destruct (acquire_token_silent_with_error env client _) as [[result|]|e];
    reflexivity.
Qed.


End Silent.

(** ** Which client the handshake builds *)

Section Factory.

Context {Client : Type} (env : Collaborators Client) (aad_config : AADConfig).

(** With the policy-based authority and no explicit policy, the
    authorization URL is built by a client of the default sign-in policy,
    which is also the policy recorded in Context Data, whatever keyword
    arguments are passed on. *)
Lemma get_auth_url_default_policy (redirect_uri : option string)
    (token_cache_ : pyval) (kwargs : gmap string pyval) (ctx : IdentityContextData) :
  authority_type aad_config = AuthorityType_B2C ->
  exists auth_req_config,
    get_auth_url env aad_config redirect_uri None token_cache_ kwargs ctx
    = (match _client_factory env aad_config PNone (PStr (b2c_susi aad_config)) ∅ with
       | Return client => get_authorization_request_url env client auth_req_config
       | Raise e => Raise e
       end,
       set_last_used_b2c_policy (Some (b2c_susi aad_config)) ctx).
Proof.
  intros Hb2c. eexists. unfold get_auth_url. rewrite Hb2c, String.eqb_refl.
  unfold prepare_b2c_auth, bind, modify, ret, lift. cbn [fst snd].
  destruct (_client_factory env aad_config PNone (PStr (b2c_susi aad_config)) ∅);
    reflexivity.
Qed.

End Factory.

(** * Scenarios *)

(** C2: a forgot-password error under the policy-based authority.  The
    handler calls [get_auth_url(policy = ...)], but the parameter is named
    [b2c_policy]: the keyword joins the msal keyword arguments, the policy
    defaults to the sign-in policy, and the redirect goes to the
    authorization URL of the sign-in policy, where the password-reset policy
    does not occur. *)
Theorem password_reset_redirect_uses_default_policy :
  let out := process_auth_redirect Mock.client Mock.b2c Mock.params_forgot_password
               "next" None None Mock.ctx_s1 in
  fst out = Return (Redirect
                      "https://login.example.com/tenant/b2c_1_susi/oauth2/v2.0/authorize") /\
  String.index 0 (b2c_password Mock.b2c)
    "https://login.example.com/tenant/b2c_1_susi/oauth2/v2.0/authorize" = None /\
  last_used_b2c_policy (snd out) = Some (b2c_susi Mock.b2c) /\
  authenticated (snd out) = false.
Proof. vm_compute. repeat split. Qed.

(** C3: the exchange under the policy-based authority, the flow having been
    started with the sign-in policy.  The positional call hands the policy to
    the factory as token cache and the token cache as policy: the client's
    authority carries no policy (or the printed cache object), and its
    [token_cache] argument is the policy string. *)
Theorem exchange_swaps_policy_and_cache :
  (exists kw,
     fst (_x_change_auth_code_for_token Mock.spy Mock.b2c (Some "abc")
            PNone None Mock.ctx_susi) = Return kw /\
     kw !! "authority" = Some (PStr "https://login.example.com/tenant") /\
     kw !! "token_cache" = Some (PStr "/b2c_1_susi")) /\
  (exists kw,
     fst (_x_change_auth_code_for_token Mock.spy Mock.b2c (Some "abc")
            (PCache "cache") None Mock.ctx_susi) = Return kw /\
     kw !! "authority" = Some (PStr "https://login.example.com/tenant<object>") /\
     kw !! "token_cache" = Some (PStr "/b2c_1_susi")).
Proof. split; eexists; vm_compute; repeat split. Qed.

(** C5, as stated, fails: when the client for the password-reset URL cannot
    be built, the exception leaves [process_auth_redirect]. *)
Lemma redirect_escapes_when_reset_url_fails :
  let out := process_auth_redirect Mock.unreachable Mock.b2c
               Mock.params_forgot_password "next" None None Mock.ctx_s1 in
  fst out = Raise (ExternalError "ValueError") /\
  ~ (exists r, fst out = Return r).
Proof.
  cbv zeta. split; [vm_compute; reflexivity|].
  intros [r H]. vm_compute in H. discriminate H.
Qed.


(** ** The theorems at the scenarios *)

(** Scenario 2 (wrong state) and the matching state of scenario 1. *)
Lemma state_verification_single_use_witness :
  (Mock.params_code !! "state" = Some "s1" /\ state Mock.ctx_s1 = Some "s1" /\
   fst (_verify_state Mock.params_code Mock.ctx_s1) = Return tt /\
   state (snd (_verify_state Mock.params_code Mock.ctx_s1)) = None) /\
  (Mock.params_wrong_state !! "state" <> state Mock.ctx_s1 /\
   fst (process_auth_redirect Mock.client Mock.aad Mock.params_wrong_state "next"
          None None Mock.ctx_s1) = Return (Action "next") /\
   is_cleared (snd (process_auth_redirect Mock.client Mock.aad Mock.params_wrong_state
                      "next" None None Mock.ctx_s1))).
Proof.
  assert (H1 : Mock.params_code !! "state" = Some "s1") by reflexivity.
  assert (H2 : state Mock.ctx_s1 = Some "s1") by reflexivity.
  assert (H3 : Mock.params_wrong_state !! "state" <> state Mock.ctx_s1)
    by (vm_compute; discriminate).
  split.
  - split; [exact H1|]. split; [exact H2|].
    exact (proj1 (state_verification_single_use Mock.client Mock.aad
                    Mock.params_code "next" None None Mock.ctx_s1) "s1" H1 H2).
  - split; [exact H3|].
    exact (proj2 (proj2 (state_verification_single_use Mock.client Mock.aad
                           Mock.params_wrong_state "next" None None Mock.ctx_s1)
                        (or_intror H3))).
Defined.

Lemma verify_state_needs_stored_state_witness :
  (state Mock.ctx_signed_in = None /\
   exists msg, fst (_verify_state Mock.params_code Mock.ctx_signed_in)
               = Raise (AuthSecurityError msg)) /\
  (fst (_verify_state Mock.params_code Mock.ctx_s1) = Return tt /\
   exists msg, fst (_verify_state Mock.params_code
                      (snd (_verify_state Mock.params_code Mock.ctx_s1)))
               = Raise (AuthSecurityError msg)).
Proof.
  assert (H1 : state Mock.ctx_signed_in = None) by reflexivity.
  assert (H2 : fst (_verify_state Mock.params_code Mock.ctx_s1) = Return tt)
    by (vm_compute; reflexivity).
  split.
  - split; [exact H1|].
    exact (proj1 (verify_state_needs_stored_state Mock.params_code Mock.ctx_signed_in) H1).
  - split; [exact H2|].
    exact (proj2 (proj2 (verify_state_needs_stored_state Mock.params_code Mock.ctx_s1) H2)
                 Mock.params_code).
Defined.

(** The empty result. *)
Lemma process_result_marks_authenticated_witness :
  (∅ : gmap string pyval) !! "error" = None /\
  let ctx' := snd (_process_result Mock.client ∅ (PCache "cache") Mock.ctx_s1) in
  fst (_process_result Mock.client ∅ (PCache "cache") Mock.ctx_s1) = Return tt /\
  authenticated ctx' = true /\
  username ctx' = PStr "anonymous" /\
  _access_token ctx' = PNone /\
  has_changed ctx' = true /\
  token_cache ctx' = PCache "cache".
Proof.
  assert (H1 : (∅ : gmap string pyval) !! "error" = None) by reflexivity.
  split; [exact H1|].
  exact (proj2 (process_result_marks_authenticated Mock.client ∅ (PCache "cache")
                  Mock.ctx_s1 H1) eq_refl eq_refl).
Defined.

(** Scenario 1. *)
Lemma redirect_success_witness :
  Mock.params_code !! "state" = Some "s1" /\ state Mock.ctx_s1 = Some "s1" /\
  Mock.params_code !! "error" = None /\
  let out := process_auth_redirect Mock.client Mock.aad Mock.params_code "next"
               None None Mock.ctx_s1 in
  fst out = Return (Action "next") /\
  authenticated (snd out) = true /\
  username (snd out) = PStr "alice" /\
  _id_token_claims (snd out) = PDict {[ "name" := PStr "alice" ]} /\
  _access_token (snd out) = PStr "tok" /\
  has_changed (snd out) = true /\
  token_cache (snd out) = token_cache Mock.ctx_s1 /\
  state (snd out) = None.
Proof.
  assert (H1 : Mock.params_code !! "state" = Some "s1") by reflexivity.
  assert (H2 : state Mock.ctx_s1 = Some "s1") by reflexivity.
  assert (H3 : Mock.params_code !! "error" = None) by reflexivity.
  split; [exact H1|]. split; [exact H2|]. split; [exact H3|].
  exact (redirect_success Mock.client Mock.aad Mock.params_code "next" None None
           Mock.ctx_s1 "s1" Mock.token_result {[ "name" := PStr "alice" ]} (PStr "tok")
           H1 H2 H3 eq_refl eq_refl eq_refl eq_refl eq_refl).
Defined.

(** A failure of the exchange under an unreachable authority is caught; and
    scenario 3 with a reachable authority ends in the redirect. *)
Lemma redirect_catches_body_errors_witness :
  (fst (process_auth_redirect_body Mock.unreachable Mock.aad Mock.params_code "next"
          None None Mock.ctx_s1) = Raise (ExternalError "ValueError") /\
   fst (process_auth_redirect Mock.unreachable Mock.aad Mock.params_code "next"
          None None Mock.ctx_s1) = Return (Action "next")) /\
  (fst (process_auth_redirect_body Mock.client Mock.b2c Mock.params_forgot_password
          "next" None None Mock.ctx_s1)
   = Raise (B2CPasswordError "B2C password reset request") /\
   is_raise (fst (get_auth_url Mock.client Mock.b2c None None PNone
                    {["policy" := PStr (b2c_password Mock.b2c)]}
                    (clear_session Mock.ctx_s1))) = false /\
   exists url,
     fst (process_auth_redirect Mock.client Mock.b2c Mock.params_forgot_password
            "next" None None Mock.ctx_s1) = Return (Redirect url)).
Proof.
  assert (H1 : fst (process_auth_redirect_body Mock.unreachable Mock.aad
                      Mock.params_code "next" None None Mock.ctx_s1)
               = Raise (ExternalError "ValueError")) by (vm_compute; reflexivity).
  assert (H2 : fst (process_auth_redirect_body Mock.client Mock.b2c
                      Mock.params_forgot_password "next" None None Mock.ctx_s1)
               = Raise (B2CPasswordError "B2C password reset request"))
    by (vm_compute; reflexivity).
  assert (H3 : is_raise (fst (get_auth_url Mock.client Mock.b2c None None PNone
                                {["policy" := PStr (b2c_password Mock.b2c)]}
                                (clear_session Mock.ctx_s1))) = false)
    by (vm_compute; reflexivity).
  split.
  - split; [exact H1|].
    apply (proj1 (redirect_catches_body_errors Mock.unreachable Mock.aad
                    Mock.params_code "next" None None Mock.ctx_s1)).
    intros msg H. rewrite H1 in H. discriminate H.
  - split; [exact H2|]. split; [exact H3|].
    exact (proj1 (proj2 (redirect_catches_body_errors Mock.client Mock.b2c
                           Mock.params_forgot_password "next" None None Mock.ctx_s1))
                 "B2C password reset request" H2 H3).
Defined.

(** A forgot-password code followed by the provider's text is a
    password-reset error; [access_denied] is a generic one. *)
Lemma other_provider_error_clears_session_witness :
  _parse_redirect_errors
    {[ "error" := "AADB2C90118: The user has forgotten their password." ]}
  = Raise (B2CPasswordError "B2C password reset request") /\
  Mock.params_access_denied !! "state" = Some "s1" /\
  Mock.params_access_denied !! "error" = Some "access_denied" /\
  String.prefix AADErrorResponse_B2C_FORGOT_PASSWORD_ERROR_CODE "access_denied" = false /\
  fst (process_auth_redirect Mock.client Mock.aad Mock.params_access_denied "next"
         None None Mock.ctx_s1) = Return (Action "next") /\
  is_cleared (snd (process_auth_redirect Mock.client Mock.aad Mock.params_access_denied
                     "next" None None Mock.ctx_s1)).
Proof.
  assert (H1 : Mock.params_access_denied !! "state" = Some "s1") by reflexivity.
  assert (H2 : state Mock.ctx_s1 = Some "s1") by reflexivity.
  assert (H3 : Mock.params_access_denied !! "error" = Some "access_denied")
    by reflexivity.
  assert (H4 : String.prefix AADErrorResponse_B2C_FORGOT_PASSWORD_ERROR_CODE
                 "access_denied" = false) by reflexivity.
  pose proof (other_provider_error_clears_session Mock.client Mock.aad
                Mock.params_access_denied "next" None None Mock.ctx_s1)
    as (Hclass & Hflow).
  split.
  { exact (Hclass {[ "error" := "AADB2C90118: The user has forgotten their password." ]}
             "AADB2C90118: The user has forgotten their password." eq_refl). }
  split; [exact H1|]. split; [exact H3|]. split; [exact H4|].
  pose proof (Hflow "s1" "access_denied" H1 H2 H3 H4) as (_ & _ & Hret & Hclr & _).
  split; [exact Hret | exact Hclr].
Defined.


(** * Further properties of the orchestrator *)

(** ** What the handshake leaves in Context Data *)

Section HandshakeInvariants.

Context {Client : Type} (env : Collaborators Client) (aad_config : AADConfig).
Context {A : Type}.

(** Processing a result never touches the pending tokens or the policy. *)
Lemma process_result_keeps_pending (result : gmap string pyval) (cache : pyval)
    (ctx : IdentityContextData) :
  state (snd (_process_result env result cache ctx)) = state ctx /\
  nonce (snd (_process_result env result cache ctx)) = nonce ctx /\
  last_used_b2c_policy (snd (_process_result env result cache ctx))
  = last_used_b2c_policy ctx.
Proof.
  unfold _process_result.
  destruct (result !! "error"); [repeat split|].
  destruct (result !! "id_token_claims") as [claims|];
    destruct (result !! "access_token"); try destruct claims; repeat split.
Qed.

(** Building an authorization URL changes at most the recorded policy. *)
Lemma get_auth_url_context (redirect_uri b2c_policy : option string)
    (cache : pyval) (kwargs : gmap string pyval) (ctx : IdentityContextData) :
  snd (get_auth_url env aad_config redirect_uri b2c_policy cache kwargs ctx) = ctx \/
  exists p, snd (get_auth_url env aad_config redirect_uri b2c_policy cache kwargs ctx)
            = set_last_used_b2c_policy (Some p) ctx.
Proof.
  unfold get_auth_url.
  destruct (String.eqb (authority_type aad_config) AuthorityType_B2C).
  - right. unfold prepare_b2c_auth.
    match goal with |- context [let '(_, _) := ?m in _] => destruct m as [d p] end.
    exists p. unfold bind, modify, ret, lift. cbn [fst snd].
    destruct (_client_factory env aad_config PNone (PStr p) ∅); reflexivity.
  - left. unfold bind, lift.
    destruct (_client_factory env aad_config PNone PNone ∅); reflexivity.
Qed.

(** A [try] body that returns has passed the state check, has consumed the
    stored state and has left the nonce and the policy alone. *)
Lemma body_success_inv (req_params : gmap string string) (next_action : A)
    (redirect_uri response_type : option string) (ctx ctx' : IdentityContextData)
    (r : Response A) :
  process_auth_redirect_body env aad_config req_params next_action
      redirect_uri response_type ctx = (Return r, ctx') ->
  (exists s, req_params !! "state" = Some s /\ state ctx = Some s) /\
  state ctx' = None /\ nonce ctx' = nonce ctx /\
  last_used_b2c_policy ctx' = last_used_b2c_policy ctx.
Proof.
  unfold process_auth_redirect_body. intros H.
  apply bind_returns in H. destruct H as (u & c1 & Hv & H).
  assert (Hok : fst (_verify_state req_params ctx) = Return tt)
    by (rewrite Hv; destruct u; reflexivity).
  destruct (verify_state_inv _ _ Hok) as (s & Hreq & Hctx).
  rewrite (verify_state_match _ _ _ Hreq Hctx) in Hv. injection Hv as _ <-.
  split; [exists s; split; assumption|].
  apply bind_returns in H. destruct H as (u2 & c2 & Hp & H).
  unfold lift in Hp. injection Hp as _ <-.
  apply bind_returns in H. destruct H as (payload & c3 & He & H).
  unfold lift in He. injection He as _ <-.
  apply bind_returns in H. destruct H as (cache & c4 & Hg & H).
  unfold gets in Hg. injection Hg as _ <-.
  apply bind_returns in H. destruct H as (result & c5 & Hx & H).
  assert (Hc5 : c5 = set_state None ctx).
  { destruct (String.eqb (resolved_response_type aad_config response_type)
                ResponseType_CODE).
    - pose proof (x_change_keeps_context env aad_config payload cache redirect_uri
                    (set_state None ctx)) as Hk.
      rewrite Hx in Hk. exact Hk.
    - unfold raise in Hx. discriminate Hx. }
  subst c5.
  apply bind_returns in H. destruct H as (u6 & c6 & Hpr & H).
  unfold ret in H. injection H as _ <-.
  pose proof (process_result_keeps_pending result cache (set_state None ctx))
    as (Hs & Hn & Hl).
  rewrite Hpr in Hs, Hn, Hl. cbn [snd] in Hs, Hn, Hl.
  rewrite Hs, Hn, Hl. repeat split.
Qed.

(** Whatever the [try] body raises, the handlers leave Context Data
    unauthenticated and without a stored state, also when the handler itself
    raises. *)
Lemma body_failure_clears (req_params : gmap string string) (next_action : A)
    (redirect_uri response_type : option string) (ctx ctx' : IdentityContextData)
    (e : exn) :
  process_auth_redirect_body env aad_config req_params next_action
      redirect_uri response_type ctx = (Raise e, ctx') ->
  authenticated (snd (process_auth_redirect env aad_config req_params next_action
                        redirect_uri response_type ctx)) = false /\
  state (snd (process_auth_redirect env aad_config req_params next_action
                redirect_uri response_type ctx)) = None.
Proof.
  intros Hbody.
  destruct e as [m|m|m|m|m| | | |n];
    try (rewrite (redirect_handles env aad_config _ _ _ _ _ _ _ Hbody);
         [split; reflexivity | intros ? ?; discriminate]).
  rewrite (redirect_password_reset env aad_config _ _ _ _ _ _ _ Hbody).
  pose proof (get_auth_url_context None None PNone
                {["policy" := PStr (b2c_password aad_config)]} (clear_session ctx))
    as Hctx.
  unfold bind, ret.
  destruct (get_auth_url env aad_config None None PNone
              {["policy" := PStr (b2c_password aad_config)]} (clear_session ctx))
    as [[url|e] c2]; cbn [snd] in *;
    destruct Hctx as [-> | [p ->]]; split; reflexivity.
Qed.

(** X1: Context Data is authenticated after [process_auth_redirect] only if
    the request's [state] was present and equal to the stored state, and the
    call then returned the next action; this holds whatever Context Data held
    before and whatever the client answers. *)
Theorem authenticated_only_through_state_check (req_params : gmap string string)
    (next_action : A) (redirect_uri response_type : option string)
    (ctx : IdentityContextData) :
  authenticated (snd (process_auth_redirect env aad_config req_params next_action
                        redirect_uri response_type ctx)) = true ->
  (exists s, req_params !! "state" = Some s /\ state ctx = Some s) /\
  fst (process_auth_redirect env aad_config req_params next_action
         redirect_uri response_type ctx) = Return (Action next_action).
Proof.
  intros Hauth.
  destruct (process_auth_redirect_body env aad_config req_params next_action
              redirect_uri response_type ctx) as [[r|e] ctx'] eqn:Hbody.
  - destruct (body_success_inv _ _ _ _ _ _ _ Hbody) as (Hs & _).
    split; [exact Hs|].
    unfold process_auth_redirect, try_except. rewrite Hbody.
    rewrite (body_returns_next_action env aad_config _ _ _ _ _ _ _ Hbody). reflexivity.
  - destruct (body_failure_clears _ _ _ _ _ _ _ Hbody) as (Hf & _).
    rewrite Hf in Hauth. discriminate Hauth.
Qed.

(** After the handshake no stored state is left. *)
Lemma redirect_state_consumed (req_params : gmap string string)
    (next_action : A) (redirect_uri response_type : option string)
    (ctx : IdentityContextData) :
  state (snd (process_auth_redirect env aad_config req_params next_action
                redirect_uri response_type ctx)) = None.
Proof.
  destruct (process_auth_redirect_body env aad_config req_params next_action
              redirect_uri response_type ctx) as [[r|e] ctx'] eqn:Hbody.
  - destruct (body_success_inv _ _ _ _ _ _ _ Hbody) as (_ & Hs & _).
    unfold process_auth_redirect, try_except. rewrite Hbody. exact Hs.
  - exact (proj2 (body_failure_clears _ _ _ _ _ _ _ Hbody)).
Qed.

(** X2: after [process_auth_redirect] no stored state is left, on every
    path: success, a caught failure, and a failure that escapes; so no later
    request passes the state check until a new state is stored. *)
Theorem redirect_always_consumes_state (req_params req_params' : gmap string string)
    (next_action : A) (redirect_uri response_type : option string)
    (ctx : IdentityContextData) :
  let ctx1 := snd (process_auth_redirect env aad_config req_params next_action
                     redirect_uri response_type ctx) in
  state ctx1 = None /\
  exists msg, fst (_verify_state req_params' ctx1) = Raise (AuthSecurityError msg).
Proof.
  intros ctx1.
  assert (Hs : state ctx1 = None) by apply redirect_state_consumed.
  split; [exact Hs|].
  rewrite verify_state_mismatch; [eexists; reflexivity|].
  rewrite Hs. destruct (req_params' !! "state"); [right; discriminate | left; reflexivity].
Qed.

(** X3: the nonce in the handshake.  The exchange hands the client the
    code, the configured scopes, the redirect URI (the given one, else the
    configured one) and the stored nonce, and never writes Context Data; a
    handshake whose [try] body returns leaves the stored nonce and the
    recorded policy as they were: the nonce goes to the client but is
    neither checked nor consumed by the orchestrator. *)
Theorem redirect_success_keeps_nonce (req_params : gmap string string)
    (next_action : A) (redirect_uri response_type : option string)
    (ctx : IdentityContextData) :
  (forall (code : option string) (cache : pyval) (ctx0 : IdentityContextData),
     snd (_x_change_auth_code_for_token env aad_config code cache redirect_uri ctx0)
     = ctx0 /\
     exists cache' policy',
       fst (_x_change_auth_code_for_token env aad_config code cache redirect_uri ctx0)
       = match _client_factory env aad_config cache' policy' ∅ with
         | Return client =>
             acquire_token_by_authorization_code env client code
               (auth_request_scopes aad_config)
               (if opt_truthy redirect_uri then redirect_uri
                else if opt_truthy (auth_request_redirect_uri aad_config)
                     then auth_request_redirect_uri aad_config else None)
               (nonce ctx0)
         | Raise e => Raise e
         end) /\
  (is_raise (fst (process_auth_redirect_body env aad_config req_params next_action
                    redirect_uri response_type ctx)) = false ->
   nonce (snd (process_auth_redirect env aad_config req_params next_action
                 redirect_uri response_type ctx)) = nonce ctx /\
   last_used_b2c_policy (snd (process_auth_redirect env aad_config req_params
                                next_action redirect_uri response_type ctx))
   = last_used_b2c_policy ctx).
Proof.
  split.
  - intros code cache ctx0. split; [apply x_change_keeps_context|].
    unfold _x_change_auth_code_for_token, bind, gets, lift, id. cbn [fst].
    eexists _, _.
    destruct (_client_factory env aad_config _ _ ∅) as [client|e] eqn:Hc;
      rewrite Hc; [|reflexivity].
    cbn [fst]. unfold opt_or.
    destruct (opt_truthy redirect_uri) eqn:Hr; cbv iota.
    + rewrite Hr. reflexivity.
    + reflexivity.
  - intros Hok.
    destruct (process_auth_redirect_body env aad_config req_params next_action
                redirect_uri response_type ctx) as [[r|e] ctx'] eqn:Hbody;
      [|discriminate Hok].
    destruct (body_success_inv _ _ _ _ _ _ _ Hbody) as (_ & _ & Hn & Hl).
    unfold process_auth_redirect, try_except. rewrite Hbody. split; assumption.
Qed.

(** X4: handling a second redirect right after a first one, whatever the
    two requests carry and however the first ended, clears the session and
    returns the next action: a replayed redirect signs the user out. *)
Theorem replayed_redirect_clears_session (req_params req_params' : gmap string string)
    (next_action next_action' : A)
    (redirect_uri response_type redirect_uri' response_type' : option string)
    (ctx : IdentityContextData) :
  let ctx1 := snd (process_auth_redirect env aad_config req_params next_action
                     redirect_uri response_type ctx) in
  fst (process_auth_redirect env aad_config req_params' next_action'
         redirect_uri' response_type' ctx1) = Return (Action next_action') /\
  is_cleared (snd (process_auth_redirect env aad_config req_params' next_action'
                     redirect_uri' response_type' ctx1)).
Proof.
  intros ctx1.
  assert (Hs : state ctx1 = None) by apply redirect_state_consumed.
  rewrite redirect_state_mismatch.
  - split; [reflexivity | apply clear_session_is_cleared].
  - rewrite Hs. destruct (req_params' !! "state"); [right; discriminate | left; reflexivity].
Qed.

End HandshakeInvariants.

(** ** Failures after the state check *)

Section HandshakeFailures.

Context {Client : Type} (env : Collaborators Client) (aad_config : AADConfig).
Context {A : Type}.

(** The handshake once the state check has passed and the request carries
    no provider error. *)
Lemma redirect_after_error_check (req_params : gmap string string) (next_action : A)
    (redirect_uri response_type : option string) (ctx : IdentityContextData)
    (s : string) :
  req_params !! "state" = Some s -> state ctx = Some s ->
  req_params !! "error" = None ->
  process_auth_redirect_body env aad_config req_params next_action
      redirect_uri response_type ctx
  = (let resp_type := resolved_response_type aad_config response_type in
     payload <- lift (_extract_auth_response_payload req_params resp_type) ;;
     cache <- gets token_cache ;;
     result <- (if String.eqb resp_type ResponseType_CODE
                then _x_change_auth_code_for_token env aad_config payload cache
                       redirect_uri
                else raise (NotImplementedError
                              ("response_type " ++ resp_type ++
                               " is not yet implemented by ms_identity_web_python"))) ;;
     _process_result env result cache ;;;
     ret (Action next_action)) (set_state None ctx).
Proof.
  intros Hreq Hctx Herr.
  rewrite (redirect_after_state_check env aad_config _ _ _ _ _ _ Hreq Hctx).
  unfold bind at 1. rewrite parse_redirect_errors_spec, Herr. reflexivity.
Qed.

(** X5: when the state check passes, the request carries no provider error
    and the exchange returns a result that carries [error], the handshake
    raises the token-exchange error; the session is cleared, nothing of the
    result is kept, and the next action is returned as given. *)
Theorem redirect_token_error_clears_session (req_params : gmap string string)
    (next_action : A) (redirect_uri response_type : option string)
    (ctx : IdentityContextData) (s : string) (result : gmap string pyval)
    (err : pyval) :
  req_params !! "state" = Some s -> state ctx = Some s ->
  req_params !! "error" = None ->
  resolved_response_type aad_config response_type = ResponseType_CODE ->
  fst (_x_change_auth_code_for_token env aad_config (req_params !! "code")
         (token_cache ctx) redirect_uri (set_state None ctx)) = Return result ->
  result !! "error" = Some err ->
  (exists msg, fst (process_auth_redirect_body env aad_config req_params next_action
                      redirect_uri response_type ctx) = Raise (TokenExchangeError msg)) /\
  fst (process_auth_redirect env aad_config req_params next_action
         redirect_uri response_type ctx) = Return (Action next_action) /\
  is_cleared (snd (process_auth_redirect env aad_config req_params next_action
                     redirect_uri response_type ctx)).
Proof.
  intros Hreq Hctx Herr Hrt Hx Hrerr.
  assert (Hbody : exists msg,
            process_auth_redirect_body env aad_config req_params next_action
              redirect_uri response_type ctx
            = (Raise (TokenExchangeError msg), set_state None ctx)).
  { rewrite (redirect_after_error_check _ _ _ _ _ _ Hreq Hctx Herr).
    cbv zeta. unfold _extract_auth_response_payload. rewrite Hrt, String.eqb_refl.
    unfold bind at 1. unfold lift at 1. unfold bind at 1. unfold gets at 1.
    unfold bind at 1.
    change (token_cache (set_state None ctx)) with (token_cache ctx).
    change (req_params !! ResponseType_CODE) with (req_params !! "code").
    pose proof (x_change_keeps_context env aad_config (req_params !! "code")
                  (token_cache ctx) redirect_uri (set_state None ctx)) as Hkeep.
    destruct (_x_change_auth_code_for_token env aad_config (req_params !! "code")
                (token_cache ctx) redirect_uri (set_state None ctx)) as [o c1].
    cbn in Hx, Hkeep. subst o c1.
    unfold bind at 1. rewrite (process_result_error _ _ _ _ _ Hrerr).
    eexists; reflexivity. }
  destruct Hbody as [msg Hbody].
  split; [exists msg; rewrite Hbody; reflexivity|].
  rewrite (redirect_handles env aad_config _ _ _ _ _ _ _ Hbody);
    [|intros ? ?; discriminate].
  split; [reflexivity | apply clear_session_is_cleared].
Qed.

(** X6: when the state check passes and the request carries no provider
    error but the resolved response type is not the authorization-code type,
    the handshake stops with the not-implemented error before any client is
    built; the session is cleared and the next action is returned, whatever
    the client would answer. *)
Theorem redirect_unsupported_response_type (req_params : gmap string string)
    (next_action : A) (redirect_uri response_type : option string)
    (ctx : IdentityContextData) (s : string) :
  req_params !! "state" = Some s -> state ctx = Some s ->
  req_params !! "error" = None ->
  String.eqb (resolved_response_type aad_config response_type) ResponseType_CODE
  = false ->
  process_auth_redirect_body env aad_config req_params next_action
      redirect_uri response_type ctx
  = (Raise (NotImplementedError
              "Only 'code' response is currently supported by identity utils"),
     set_state None ctx) /\
  fst (process_auth_redirect env aad_config req_params next_action
         redirect_uri response_type ctx) = Return (Action next_action) /\
  is_cleared (snd (process_auth_redirect env aad_config req_params next_action
                     redirect_uri response_type ctx)).
Proof.
  intros Hreq Hctx Herr Hrt.
  assert (Hbody : process_auth_redirect_body env aad_config req_params next_action
                    redirect_uri response_type ctx
                  = (Raise (NotImplementedError
                              "Only 'code' response is currently supported by identity utils"),
                     set_state None ctx)).
  { rewrite (redirect_after_error_check _ _ _ _ _ _ Hreq Hctx Herr).
    cbv zeta. unfold _extract_auth_response_payload. rewrite Hrt. reflexivity. }
  split; [exact Hbody|].
  rewrite (redirect_handles env aad_config _ _ _ _ _ _ _ Hbody);
    [|intros ? ?; discriminate].
  split; [reflexivity | apply clear_session_is_cleared].
Qed.

(** X7: the login-required guard after a handshake.  When the [try] body
    raised, the guard raises and the route is not run; and whenever the guard
    lets the route run, the request's [state] had matched the stored state. *)
Theorem guard_follows_handshake {X B : Type} (f : X -> B) (args : X)
    (req_params : gmap string string) (next_action : A)
    (redirect_uri response_type : option string) (ctx : IdentityContextData) :
  let ctx1 := snd (process_auth_redirect env aad_config req_params next_action
                     redirect_uri response_type ctx) in
  (is_raise (fst (process_auth_redirect_body env aad_config req_params next_action
                    redirect_uri response_type ctx)) = true ->
   login_required f args ctx1 = inl NotAuthenticatedError) /\
  (forall b, login_required f args ctx1 = inr b ->
     b = f args /\ exists s, req_params !! "state" = Some s /\ state ctx = Some s).
Proof.
  intros ctx1. subst ctx1. unfold login_required.
  destruct (process_auth_redirect_body env aad_config req_params next_action
              redirect_uri response_type ctx) as [[r|e] ctx'] eqn:Hbody.
  - split; [discriminate|].
    intros b Hb. destruct (body_success_inv env aad_config _ _ _ _ _ _ _ Hbody) as (Hs & _).
    destruct (authenticated _); cbn in Hb; [|discriminate].
    injection Hb as <-. split; [reflexivity | exact Hs].
  - destruct (body_failure_clears env aad_config _ _ _ _ _ _ _ Hbody) as (Hf & _).
    rewrite Hf. cbn. split; [reflexivity | discriminate].
Qed.

End HandshakeFailures.

(** ** Issuing and checking the single-use tokens *)

Lemma verify_nonce_match (req_params : gmap string string)
    (ctx : IdentityContextData) (n : string) :
  req_params !! "nonce" = Some n -> nonce ctx = Some n ->
  _verify_nonce req_params ctx = (Return tt, set_nonce None ctx).
Proof.
  intros Hreq Hctx. unfold _verify_nonce, bind, gets, modify, raise.
  rewrite Hreq, Hctx. rewrite bool_decide_eq_true_2 by reflexivity. reflexivity.
Qed.

Lemma verify_nonce_mismatch (req_params : gmap string string)
    (ctx : IdentityContextData) :
  req_params !! "nonce" = None \/ req_params !! "nonce" <> nonce ctx ->
  _verify_nonce req_params ctx =
    (Raise (AuthSecurityError "Failed to match ID token nonce with session nonce"), ctx).
Proof.
  intros H. unfold _verify_nonce, bind, gets, modify, raise.
  destruct (req_params !! "nonce") as [n|] eqn:Hreq.
  - destruct H as [H|H]; [discriminate|].
    rewrite bool_decide_eq_false_2 by (intros E; apply H; symmetry; exact E).
    reflexivity.
  - reflexivity.
Qed.

(** X8: the nonce check is single use.  It returns exactly when the
    request's [nonce] is present and equal to the stored nonce, and then
    clears the stored nonce and leaves the stored state alone; otherwise it
    raises the security error and changes nothing; after a success every
    further check fails. *)
Theorem verify_nonce_single_use (req_params : gmap string string)
    (ctx : IdentityContextData) :
  (forall n, req_params !! "nonce" = Some n -> nonce ctx = Some n ->
     fst (_verify_nonce req_params ctx) = Return tt /\
     nonce (snd (_verify_nonce req_params ctx)) = None /\
     state (snd (_verify_nonce req_params ctx)) = state ctx /\
     forall req_params' : gmap string string,
       exists msg, fst (_verify_nonce req_params' (snd (_verify_nonce req_params ctx)))
                   = Raise (AuthSecurityError msg)) /\
  (req_params !! "nonce" = None \/ req_params !! "nonce" <> nonce ctx ->
     (exists msg, fst (_verify_nonce req_params ctx) = Raise (AuthSecurityError msg)) /\
     snd (_verify_nonce req_params ctx) = ctx).
Proof.
  split.
  - intros n Hreq Hctx. rewrite (verify_nonce_match _ _ _ Hreq Hctx).
    split; [reflexivity|]. split; [reflexivity|]. split; [reflexivity|].
    intros r. rewrite verify_nonce_mismatch; [eexists; reflexivity|].
    cbn. destruct (r !! "nonce"); [right; discriminate | left; reflexivity].
  - intros H. rewrite (verify_nonce_mismatch _ _ H).
    split; [eexists; reflexivity | reflexivity].
Qed.

(** X9: a state that was just generated passes the state check once.  The
    call stores the fresh value, writes the same value into the request dict
    under [state] without touching its other entries, and leaves the stored
    nonce alone; a redirect that echoes the value passes the check, and a
    second one does not. *)
Theorem generated_state_verifies_once (uuid4 : string)
    (req_param_dict : gmap string pyval) (req_params : gmap string string)
    (ctx : IdentityContextData) :
  req_params !! "state" = Some uuid4 ->
  let out := _generate_and_append_state_to_context_and_request uuid4
               req_param_dict ctx in
  (exists d, fst out = Return (d, uuid4) /\
             d !! "state" = Some (PStr uuid4) /\
             forall k, k <> "state" -> d !! k = req_param_dict !! k) /\
  nonce (snd out) = nonce ctx /\
  fst (_verify_state req_params (snd out)) = Return tt /\
  exists msg, fst (_verify_state req_params (snd (_verify_state req_params (snd out))))
              = Raise (AuthSecurityError msg).
Proof.
  intros Hreq out. subst out.
  unfold _generate_and_append_state_to_context_and_request, bind, modify, ret.
  cbn [fst snd]. split.
  - eexists. split; [reflexivity|]. unfold RequestParameter_STATE. split.
    + apply lookup_insert_eq.
    + intros k Hk. apply lookup_insert_ne. congruence.
  - split; [reflexivity|].
    rewrite (verify_state_match req_params (set_state (Some uuid4) ctx) uuid4 Hreq eq_refl).
    split; [reflexivity|].
    rewrite verify_state_mismatch; [eexists; reflexivity|].
    right. rewrite Hreq. discriminate.
Qed.

(** X10: a nonce that was just generated passes the nonce check once, is
    written into the request dict under [nonce] only, and generating it
    leaves the stored state alone. *)
Theorem generated_nonce_verifies_once (uuid4 : string)
    (req_param_dict : gmap string pyval) (req_params : gmap string string)
    (ctx : IdentityContextData) :
  req_params !! "nonce" = Some uuid4 ->
  let out := _generate_and_append_nonce_to_context_and_request uuid4
               req_param_dict ctx in
  (exists d, fst out = Return (d, uuid4) /\
             d !! "nonce" = Some (PStr uuid4) /\
             forall k, k <> "nonce" -> d !! k = req_param_dict !! k) /\
  state (snd out) = state ctx /\
  fst (_verify_nonce req_params (snd out)) = Return tt /\
  exists msg, fst (_verify_nonce req_params (snd (_verify_nonce req_params (snd out))))
              = Raise (AuthSecurityError msg).
Proof.
  intros Hreq out. subst out.
  unfold _generate_and_append_nonce_to_context_and_request, bind, modify, ret.
  cbn [fst snd]. split.
  - eexists. split; [reflexivity|]. unfold RequestParameter_NONCE. split.
    + apply lookup_insert_eq.
    + intros k Hk. apply lookup_insert_ne. congruence.
  - split; [reflexivity|].
    rewrite (verify_nonce_match req_params (set_nonce (Some uuid4) ctx) uuid4 Hreq eq_refl).
    split; [reflexivity|].
    rewrite verify_nonce_mismatch; [eexists; reflexivity|].
    right. rewrite Hreq. discriminate.
Qed.

(** X11: only the latest generated state is outstanding: once a second
    state has been generated, a redirect that echoes the first one fails the
    state check, and the stored state stays the second one. *)
Theorem regenerated_state_replaces_previous (uuid_a uuid_b : string)
    (dict_a dict_b : gmap string pyval) (req_params : gmap string string)
    (ctx : IdentityContextData) :
  uuid_a <> uuid_b ->
  req_params !! "state" = Some uuid_a ->
  let ctx1 := snd (_generate_and_append_state_to_context_and_request uuid_a dict_a ctx) in
  let ctx2 := snd (_generate_and_append_state_to_context_and_request uuid_b dict_b ctx1) in
  (exists msg, fst (_verify_state req_params ctx2) = Raise (AuthSecurityError msg)) /\
  state (snd (_verify_state req_params ctx2)) = Some uuid_b.
Proof.
  intros Hne Hreq ctx1 ctx2. subst ctx1 ctx2.
  unfold _generate_and_append_state_to_context_and_request, bind, modify, ret.
  cbn [fst snd].
  rewrite verify_state_mismatch.
  - split; [eexists; reflexivity | reflexivity].
  - right. rewrite Hreq. cbn. congruence.
Qed.

(** ** Building the authorization request *)

Section AuthorizationRequest.

Context {Client : Type} (env : Collaborators Client) (aad_config : AADConfig).

(** The policy a request resolves to: the given one, or the default sign-in
    policy when none or an empty one is given. *)
Lemma prepare_b2c_auth_spec (d : gmap string pyval) (b2c_policy : option string)
    (ctx : IdentityContextData) :
  exists d' p,
    prepare_b2c_auth aad_config d b2c_policy ctx
    = (Return (d', p), set_last_used_b2c_policy (Some p) ctx) /\
    p = (if opt_truthy b2c_policy then default "" b2c_policy else b2c_susi aad_config) /\
    (d' = d \/
     d' = delete Prompt_PARAM_KEY d /\ p <> b2c_susi aad_config /\
     exists v, d !! Prompt_PARAM_KEY = Some v /\ py_eq_str v Prompt_SELECT_ACCOUNT = true) /\
    (p <> b2c_susi aad_config ->
     forall v, d !! Prompt_PARAM_KEY = Some v ->
               py_eq_str v Prompt_SELECT_ACCOUNT = true ->
               d' = delete Prompt_PARAM_KEY d).
Proof.
  unfold prepare_b2c_auth, opt_truthy.
  destruct b2c_policy as [p|]; cbn [of_opt default].
  - destruct (truthy (PStr p)) eqn:Ht; cbn [negb].
    + destruct (String.eqb p (b2c_susi aad_config)) eqn:He; cbn [negb andb].
      * apply String.eqb_eq in He. eexists _, _. split; [reflexivity|].
        split; [reflexivity|]. split; [left; reflexivity|]. intros Hne. contradiction.
      * apply String.eqb_neq in He.
        destruct (d !! Prompt_PARAM_KEY) as [v|] eqn:Hp.
        -- destruct (py_eq_str v Prompt_SELECT_ACCOUNT) eqn:Hv.
           ++ eexists _, _. split; [reflexivity|]. split; [reflexivity|].
              split; [right; split; [reflexivity|]; split; [exact He|];
                      exists v; split; [reflexivity | exact Hv]|].
              intros _ v' _ _. reflexivity.
           ++ eexists _, _. split; [reflexivity|]. split; [reflexivity|].
              split; [left; reflexivity|].
              intros _ v' Hv' Hsel. injection Hv' as <-. congruence.
        -- eexists _, _. split; [reflexivity|]. split; [reflexivity|].
           split; [left; reflexivity|]. intros _ v' Hv'. discriminate Hv'.
    + eexists _, _. split; [reflexivity|]. split; [reflexivity|].
      split; [left; reflexivity|]. intros Hne. contradiction.
  - eexists _, _. split; [reflexivity|]. split; [reflexivity|].
    split; [left; reflexivity|]. intros Hne. contradiction.
Qed.

(** X12: [prepare_b2c_auth] always returns; the policy it returns is the
    given one, or the default sign-in policy when none or an empty one is
    given; that policy is recorded as the last used policy and nothing else
    of Context Data changes. *)
Theorem prepare_b2c_auth_records_policy (d : gmap string pyval)
    (b2c_policy : option string) (ctx : IdentityContextData) :
  exists d',
    let p := if opt_truthy b2c_policy then default "" b2c_policy
             else b2c_susi aad_config in
    prepare_b2c_auth aad_config d b2c_policy ctx
    = (Return (d', p), set_last_used_b2c_policy (Some p) ctx).
Proof.
  destruct (prepare_b2c_auth_spec d b2c_policy ctx) as (d' & p & Heq & Hp & _).
  exists d'. cbv zeta. rewrite <- Hp. exact Heq.
Qed.

(** X13: the request settings that [prepare_b2c_auth] returns differ from
    the given ones at most in [prompt]; under the default sign-in policy they
    are returned as given; under any other policy they never ask for the
    account picker. *)
Theorem prepare_b2c_auth_strips_account_picker (d : gmap string pyval)
    (b2c_policy : option string) (ctx : IdentityContextData) :
  exists d' p,
    fst (prepare_b2c_auth aad_config d b2c_policy ctx) = Return (d', p) /\
    (forall k, k <> Prompt_PARAM_KEY -> d' !! k = d !! k) /\
    (p = b2c_susi aad_config -> d' = d) /\
    (p <> b2c_susi aad_config ->
     d' !! Prompt_PARAM_KEY <> Some (PStr Prompt_SELECT_ACCOUNT)).
Proof.
  destruct (prepare_b2c_auth_spec d b2c_policy ctx)
    as (d' & p & Heq & _ & Hshape & Hstrip).
  exists d', p. rewrite Heq. split; [reflexivity|]. split; [|split].
  - intros k Hk. destruct Hshape as [-> | (-> & _)]; [reflexivity|].
    apply lookup_delete_ne. congruence.
  - intros Hp. destruct Hshape as [-> | (_ & Hne & _)]; [reflexivity | contradiction].
  - intros Hne Hsel.
    destruct (d !! Prompt_PARAM_KEY) as [v|] eqn:Hv.
    + destruct (py_eq_str v Prompt_SELECT_ACCOUNT) eqn:Hpy.
      * rewrite (Hstrip Hne v eq_refl Hpy) in Hsel.
        rewrite lookup_delete_eq in Hsel. discriminate Hsel.
      * destruct Hshape as [-> | (_ & _ & v' & Hv' & Hpy')].
        -- rewrite Hv in Hsel. injection Hsel as ->. discriminate Hpy.
        -- injection Hv' as <-. congruence.
    + destruct Hshape as [-> | (_ & _ & v' & Hv' & _)].
      * rewrite Hv in Hsel. discriminate Hsel.
      * discriminate Hv'.
Qed.

(** X14: [get_auth_url] changes nothing of Context Data but, under the
    policy-based authority, the last used policy: it stores neither a state
    nor a nonce and does not touch the authentication status, the user, the
    tokens, the token cache or the dirty flag. *)
Theorem get_auth_url_keeps_session (redirect_uri b2c_policy : option string)
    (cache : pyval) (kwargs : gmap string pyval) (ctx : IdentityContextData) :
  let ctx' := snd (get_auth_url env aad_config redirect_uri b2c_policy cache
                     kwargs ctx) in
  state ctx' = state ctx /\ nonce ctx' = nonce ctx /\
  authenticated ctx' = authenticated ctx /\ username ctx' = username ctx /\
  _id_token_claims ctx' = _id_token_claims ctx /\
  _access_token ctx' = _access_token ctx /\
  token_cache ctx' = token_cache ctx /\ has_changed ctx' = has_changed ctx /\
  (String.eqb (authority_type aad_config) AuthorityType_B2C = false -> ctx' = ctx).
Proof.
  cbv zeta.
  assert (Hstd : String.eqb (authority_type aad_config) AuthorityType_B2C = false ->
                 snd (get_auth_url env aad_config redirect_uri b2c_policy cache
                        kwargs ctx) = ctx).
  { intros Hb. unfold get_auth_url. rewrite Hb. unfold bind, lift.
    destruct (_client_factory env aad_config PNone PNone ∅); reflexivity. }
  destruct (get_auth_url_context env aad_config redirect_uri b2c_policy cache
              kwargs ctx) as [H | [p H]];
    rewrite H in *; repeat split; try exact Hstd.
Qed.

(** The client configuration without keyword arguments and without a cache. *)
Lemma client_factory_policy (p : string) :
  _client_factory env aad_config PNone (PStr p) ∅
  = ConfidentialClientApplication env
      (<["authority" := PStr (client_authority aad_config ++ p)]>
         (client_dict aad_config)).
Proof.
  unfold _client_factory, py_or, py_format. cbn [truthy].
  rewrite (left_id_L ∅ (∪)).
  destruct (String.eqb p "") eqn:He; cbn [negb]; [|reflexivity].
  apply String.eqb_eq in He. subst p. reflexivity.
Qed.

(** X15: under the policy-based authority, an authorization URL requested
    for a non-empty policy is built by a client whose authority is the base
    authority followed by that policy, and Context Data records that policy;
    an exception of the client is passed on after the policy was recorded. *)
Theorem get_auth_url_uses_given_policy (redirect_uri : option string) (p : string)
    (cache : pyval) (kwargs : gmap string pyval) (ctx : IdentityContextData) :
  String.eqb (authority_type aad_config) AuthorityType_B2C = true ->
  p <> "" ->
  exists d,
    get_auth_url env aad_config redirect_uri (Some p) cache kwargs ctx
    = (match ConfidentialClientApplication env
               (<["authority" := PStr (client_authority aad_config ++ p)]>
                  (client_dict aad_config)) with
       | Return client => get_authorization_request_url env client d
       | Raise e => Raise e
       end,
       set_last_used_b2c_policy (Some p) ctx).
Proof.
  intros Hb Hp. unfold get_auth_url. rewrite Hb.
  match goal with
  | |- context [prepare_b2c_auth aad_config ?d (Some p)] =>
      destruct (prepare_b2c_auth_spec d (Some p) ctx) as (d' & q & Heq & Hq & _)
  end.
  assert (Ht : opt_truthy (Some p) = true).
  { unfold opt_truthy. cbn. apply String.eqb_neq in Hp. rewrite Hp. reflexivity. }
  rewrite Ht in Hq. cbn in Hq. subst q.
  exists d'. unfold bind at 1. rewrite Heq. cbn [fst snd].
  unfold bind, lift. rewrite client_factory_policy.
  destruct (ConfidentialClientApplication env _); reflexivity.
Qed.

(** X16: what [_client_factory] hands to the client's constructor.  The
    caller's keyword arguments win over everything; otherwise [authority] is
    the configured authority followed by the policy (nothing when no policy
    is given), [token_cache] is the given cache when it is true and the
    configured entry when it is not, and every other entry is the configured
    one. *)
Theorem client_factory_arguments (cache : pyval) (b2c_policy : option string)
    (kwargs : gmap string pyval) :
  exists client_config,
    _client_factory env aad_config cache (of_opt b2c_policy) kwargs
    = ConfidentialClientApplication env client_config /\
    (forall k v, kwargs !! k = Some v -> client_config !! k = Some v) /\
    (kwargs !! "authority" = None ->
     client_config !! "authority"
     = Some (PStr (client_authority aad_config ++ default "" b2c_policy))) /\
    (kwargs !! "token_cache" = None ->
     client_config !! "token_cache"
     = if truthy cache then Some cache else client_dict aad_config !! "token_cache") /\
    (forall k, k <> "authority" -> k <> "token_cache" -> kwargs !! k = None ->
               client_config !! k = client_dict aad_config !! k).
Proof.
  eexists. split; [reflexivity|].
  assert (Hfmt : py_format env (py_or (of_opt b2c_policy) (PStr ""))
                 = default "" b2c_policy).
  { destruct b2c_policy as [p|]; [|reflexivity].
    unfold py_or. cbn. destruct (String.eqb p "") eqn:He; cbn; [|reflexivity].
    apply String.eqb_eq in He. congruence. }
  rewrite Hfmt.
  split; [|split; [|split]].
  - intros k v Hk. apply lookup_union_Some_l. exact Hk.
  - intros Hk. rewrite lookup_union_r by exact Hk.
    destruct (truthy cache).
    + rewrite lookup_insert_ne by discriminate. apply lookup_insert_eq.
    + apply lookup_insert_eq.
  - intros Hk. rewrite lookup_union_r by exact Hk.
    destruct (truthy cache).
    + apply lookup_insert_eq.
    + rewrite lookup_insert_ne by discriminate. reflexivity.
  - intros k Ha Ht Hk. rewrite lookup_union_r by exact Hk.
    destruct (truthy cache).
    + rewrite !lookup_insert_ne by congruence. reflexivity.
    + rewrite lookup_insert_ne by congruence. reflexivity.
Qed.

End AuthorizationRequest.

Section RequestSettings.

Context {Client : Type} (env : Collaborators Client) (aad_config : AADConfig).

(** X17: the settings [get_auth_url] hands to the URL builder, for keyword
    arguments that do not name one of its own parameters.  [redirect_uri] is
    the explicit redirect URI when that is given and not empty, and the
    configured one otherwise; apart from [prompt], every other entry is the
    caller's keyword argument when there is one and the configured request
    setting when there is none, under both authority types. *)
Theorem get_auth_url_settings_precedence (redirect_uri b2c_policy : option string)
    (cache : pyval) (kwargs : gmap string pyval) (ctx : IdentityContextData) :
  kwargs !! "redirect_uri" = None ->
  kwargs !! "b2c_policy" = None ->
  kwargs !! "token_cache" = None ->
  exists d cache' policy',
    fst (get_auth_url env aad_config redirect_uri b2c_policy cache kwargs ctx)
    = match _client_factory env aad_config cache' policy' ∅ with
      | Return client => get_authorization_request_url env client d
      | Raise e => Raise e
      end /\
    d !! "redirect_uri"
    = (if opt_truthy redirect_uri then Some (PStr (default "" redirect_uri))
       else auth_request_dict aad_config !! "redirect_uri") /\
    (forall k v, k <> Prompt_PARAM_KEY -> kwargs !! k = Some v -> d !! k = Some v) /\
    (forall k, k <> "redirect_uri" -> k <> Prompt_PARAM_KEY ->
               kwargs !! k = None -> d !! k = auth_request_dict aad_config !! k).
Proof.
  intros Hkr _ _. unfold get_auth_url.
  set (d0 := match redirect_uri with
             | Some r => if truthy (PStr r)
                         then <["redirect_uri" := PStr r]>
                                (kwargs ∪ auth_request_dict aad_config)
                         else kwargs ∪ auth_request_dict aad_config
             | None => kwargs ∪ auth_request_dict aad_config
             end).
  assert (Hbase : forall k, kwargs !! k = None ->
            (kwargs ∪ auth_request_dict aad_config) !! k
            = auth_request_dict aad_config !! k)
    by (intros k Hk; apply lookup_union_r; exact Hk).
  assert (H0 : d0 !! "redirect_uri"
               = (if opt_truthy redirect_uri then Some (PStr (default "" redirect_uri))
                  else auth_request_dict aad_config !! "redirect_uri")).
  { unfold d0, opt_truthy. destruct redirect_uri as [r|]; cbn [of_opt default].
    - destruct (truthy (PStr r)); [apply lookup_insert_eq | apply Hbase; exact Hkr].
    - apply Hbase. exact Hkr. }
  assert (Hne : forall k, k <> "redirect_uri" ->
            d0 !! k = (kwargs ∪ auth_request_dict aad_config) !! k).
  { intros k Hk. unfold d0. destruct redirect_uri as [r|]; [|reflexivity].
    destruct (truthy (PStr r)); [|reflexivity].
    apply lookup_insert_ne. congruence. }
  assert (H1 : forall k v, kwargs !! k = Some v -> d0 !! k = Some v).
  { intros k v Hv. rewrite Hne by (intros ->; congruence).
    apply lookup_union_Some_l. exact Hv. }
  assert (H2 : forall k, k <> "redirect_uri" -> kwargs !! k = None ->
                         d0 !! k = auth_request_dict aad_config !! k).
  { intros k Hk Hv. rewrite Hne by exact Hk. apply Hbase. exact Hv. }
  destruct (String.eqb (authority_type aad_config) AuthorityType_B2C).
  - destruct (prepare_b2c_auth_spec aad_config d0 b2c_policy ctx)
      as (d' & p & Heq & _ & Hshape & _).
    assert (Hd : forall k, k <> Prompt_PARAM_KEY -> d' !! k = d0 !! k).
    { intros k Hk. destruct Hshape as [-> | (-> & _)]; [reflexivity|].
      apply lookup_delete_ne. congruence. }
    exists d', PNone, (PStr p). unfold bind at 1. rewrite Heq. cbn [fst snd].
    unfold bind, lift.
    split; [destruct (_client_factory env aad_config PNone (PStr p) ∅); reflexivity|].
    split; [rewrite Hd by discriminate; exact H0|].
    split.
    + intros k v Hp Hv. rewrite Hd by exact Hp. apply H1; assumption.
    + intros k Hk Hp Hv. rewrite Hd by exact Hp. apply H2; assumption.
  - exists d0, PNone, PNone. unfold bind, lift.
    split; [destruct (_client_factory env aad_config PNone PNone ∅); reflexivity|].
    split; [exact H0|]. split.
    + intros k v _ Hv. apply H1; assumption.
    + intros k Hk _ Hv. apply H2; assumption.
Qed.

End RequestSettings.

(** ** Signing out *)

Lemma prefix_app (a b : string) : String.prefix a (a ++ b) = true.
Proof.
  induction a as [|c a IH]; [destruct b; reflexivity|].
  change (String c a ++ b) with (String c (a ++ b)).
  change (String.prefix (String c a) (String c (a ++ b)))
    with (if Ascii.ascii_dec c c then String.prefix a (a ++ b) else false).
  destruct (Ascii.ascii_dec c c) as [_|Hne]; [exact IH | contradiction].
Qed.

Lemma prefix_refl (a : string) : String.prefix a a = true.
Proof.
  induction a as [|c a IH]; [reflexivity|].
  change (String.prefix (String c a) (String c a))
    with (if Ascii.ascii_dec c c then String.prefix a a else false).
  destruct (Ascii.ascii_dec c c) as [_|Hne]; [exact IH | contradiction].
Qed.

(** X18: [sign_out] only computes a redirect: Context Data is returned as
    it was.  The logout URL starts with the configured authority, followed
    under the policy-based authority by the default sign-in policy, and then
    by the logout path; it depends neither on Context Data (so not on the
    policy last used) nor on the user name given; and without a post-logout
    URL, or with an empty one, it carries no query. *)
Theorem sign_out_keeps_session {A : Type} (SignOut_ENDPOINT : string)
    (aad_config : AADConfig) (post_sign_out_url username_ : option string)
    (ctx : IdentityContextData) :
  let base :=
    client_authority aad_config ++
    (if String.eqb (authority_type aad_config) AuthorityType_B2C
     then b2c_susi aad_config else "") ++ SignOut_ENDPOINT in
  exists url,
    sign_out (A := A) SignOut_ENDPOINT aad_config post_sign_out_url username_ ctx
    = (Return (Redirect url), ctx) /\
    String.prefix base url = true /\
    (opt_truthy post_sign_out_url = false -> url = base) /\
    (forall username' ctx',
       fst (sign_out (A := A) SignOut_ENDPOINT aad_config post_sign_out_url
              username' ctx') = Return (Redirect url)).
Proof.
  cbv zeta. unfold sign_out, ret, redirect_to_absolute_url, opt_truthy.
  destruct (String.eqb (authority_type aad_config) AuthorityType_B2C);
    destruct post_sign_out_url as [u|]; cbn [of_opt];
    try destruct (truthy (PStr u));
    eexists; (split; [reflexivity|]);
    (split; [first [apply prefix_app | apply prefix_refl]|]);
    (split; [first [discriminate | reflexivity]|]); intros; reflexivity.
Qed.

(** X19: the guard and the local session.  After [remove_user] the guard
    raises for every route, whatever Context Data held; after [sign_out] the
    guard answers as before it, so a signed-in session still reaches the
    route until [remove_user] is called. *)
Theorem guard_after_sign_out_and_remove_user {A X B : Type} (f : X -> B) (args : X)
    (SignOut_ENDPOINT : string) (aad_config : AADConfig)
    (post_sign_out_url username_ : option string) (ctx : IdentityContextData) :
  login_required f args (snd (remove_user ctx)) = inl NotAuthenticatedError /\
  login_required f args
    (snd (sign_out (A := A) SignOut_ENDPOINT aad_config post_sign_out_url
            username_ ctx))
  = login_required f args ctx /\
  (authenticated ctx = true ->
   login_required f args
     (snd (sign_out (A := A) SignOut_ENDPOINT aad_config post_sign_out_url
             username_ ctx)) = inr (f args)).
Proof.
  split; [reflexivity|]. split; [reflexivity|].
  intros Ha. unfold login_required, sign_out, ret. cbn [snd]. rewrite Ha. reflexivity.
Qed.

(** ** Silent acquisition and the token result *)

Section SilentSuccess.

Context {Client : Type} (env : Collaborators Client) (aad_config : AADConfig).

(** X20: a silent acquisition for a given account whose result carries no
    [error] returns, without asking the client for its cached accounts; it
    leaves Context Data authenticated and dirty, stores back the token cache
    it used, which is the one given when that is true and the stored one
    otherwise, and leaves the pending state and nonce alone. *)
Theorem silent_success_updates_context (scopes account authority cache : pyval)
    (kwargs : gmap string pyval) (ctx : IdentityContextData) (client : Client)
    (result : gmap string pyval) :
  _client_factory env aad_config (py_or cache (token_cache ctx)) PNone ∅
    = Return client ->
  truthy account = true ->
  acquire_token_silent_with_error env client
    (silent_options aad_config scopes kwargs account) = Return (Some result) ->
  result !! "error" = None ->
  (forall claims, result !! "id_token_claims" = Some claims ->
     exists d, claims = PDict d) ->
  let out := acquire_token_silently env aad_config scopes account authority cache
               kwargs ctx in
  fst out = Return tt /\
  snd out = set_token_cache (py_or cache (token_cache ctx))
              (set_has_changed true
                 (with_access_token result
                    (with_claims result (set_authenticated true ctx)))) /\
  authenticated (snd out) = true /\ has_changed (snd out) = true /\
  token_cache (snd out) = (if truthy cache then cache else token_cache ctx) /\
  state (snd out) = state ctx /\ nonce (snd out) = nonce ctx.
Proof.
  intros Hclient Hacc Hres Herr Hclaims out. subst out.
  rewrite (acquire_token_silently_unfold env aad_config _ _ _ _ _ _ _ Hclient).
  unfold chosen_account. rewrite Hacc, Hres.
  pose proof (process_result_keeps_pending env result
                (py_or cache (token_cache ctx)) ctx) as (Hs & Hn & _).
  rewrite (process_result_success env _ _ _ Herr Hclaims) in *.
  cbn [fst snd] in *.
  split; [reflexivity|]. split; [reflexivity|].
  split.
  { unfold with_claims, with_access_token.
    destruct (result !! "id_token_claims") as [[]|];
      destruct (result !! "access_token"); reflexivity. }
  split; [reflexivity|].
  split; [reflexivity|]. split; assumption.
Qed.

(** X21: when the client's silent acquisition finds nothing and answers
    [None], the call fails with a [TypeError] and Context Data is unchanged. *)
Theorem silent_cache_miss_raises_type_error (scopes account authority cache : pyval)
    (kwargs : gmap string pyval) (ctx : IdentityContextData) (client : Client)
    (acc : pyval) :
  _client_factory env aad_config (py_or cache (token_cache ctx)) PNone ∅
    = Return client ->
  chosen_account env client account = Return acc ->
  acquire_token_silent_with_error env client
    (silent_options aad_config scopes kwargs acc) = Return None ->
  acquire_token_silently env aad_config scopes account authority cache kwargs ctx
  = (Raise TypeError, ctx).
Proof.
  intros Hclient Hacc Hres.
  rewrite (acquire_token_silently_unfold env aad_config _ _ _ _ _ _ _ Hclient).
  rewrite Hacc, Hres. reflexivity.
Qed.

(** X22: [_process_result] is not all-or-nothing.  For a result without
    [error] whose [id_token_claims] is not a dict, it raises an
    [AttributeError] after it has marked Context Data authenticated and
    stored the claims: the user name, the access token, the dirty flag and
    the token cache are left as they were. *)
Theorem process_result_partial_on_bad_claims (result : gmap string pyval)
    (cache claims : pyval) (ctx : IdentityContextData) :
  result !! "error" = None ->
  result !! "id_token_claims" = Some claims ->
  (forall d, claims <> PDict d) ->
  _process_result env result cache ctx
  = (Raise AttributeError, set_id_token_claims claims (set_authenticated true ctx)) /\
  authenticated (snd (_process_result env result cache ctx)) = true /\
  username (snd (_process_result env result cache ctx)) = username ctx /\
  _access_token (snd (_process_result env result cache ctx)) = _access_token ctx /\
  has_changed (snd (_process_result env result cache ctx)) = has_changed ctx /\
  token_cache (snd (_process_result env result cache ctx)) = token_cache ctx.
Proof.
  intros Herr Hclaims Hnd.
  assert (H : _process_result env result cache ctx
              = (Raise AttributeError,
                 set_id_token_claims claims (set_authenticated true ctx))).
  { unfold _process_result. rewrite Herr, Hclaims.
    destruct claims as [|s|l|d|b]; try reflexivity.
    exfalso. exact (Hnd d eq_refl). }
  rewrite H. repeat split.
Qed.

End SilentSuccess.

(** ** The further properties at the scenarios *)

(** Scenario 1: the session is authenticated, so the state had matched. *)
Lemma authenticated_only_through_state_check_witness :
  authenticated (snd (process_auth_redirect Mock.client Mock.aad Mock.params_code
                        "next" None None Mock.ctx_s1)) = true /\
  (exists s, Mock.params_code !! "state" = Some s /\ state Mock.ctx_s1 = Some s) /\
  fst (process_auth_redirect Mock.client Mock.aad Mock.params_code "next" None None
         Mock.ctx_s1) = Return (Action "next").
Proof.
  assert (H : authenticated (snd (process_auth_redirect Mock.client Mock.aad
                                    Mock.params_code "next" None None Mock.ctx_s1))
              = true) by (vm_compute; reflexivity).
  split; [exact H|].
  exact (authenticated_only_through_state_check Mock.client Mock.aad Mock.params_code
           "next" None None Mock.ctx_s1 H).
Defined.

Lemma redirect_success_keeps_nonce_witness :
  is_raise (fst (process_auth_redirect_body Mock.client Mock.aad Mock.params_code
                   "next" None None Mock.ctx_s1)) = false /\
  nonce (snd (process_auth_redirect Mock.client Mock.aad Mock.params_code "next"
                None None Mock.ctx_s1)) = Some "n1".
Proof.
  assert (H : is_raise (fst (process_auth_redirect_body Mock.client Mock.aad
                               Mock.params_code "next" None None Mock.ctx_s1)) = false)
    by (vm_compute; reflexivity).
  split; [exact H|].
  exact (proj1 (proj2 (redirect_success_keeps_nonce Mock.client Mock.aad
                         Mock.params_code "next" None None Mock.ctx_s1) H)).
Defined.

Lemma redirect_token_error_clears_session_witness :
  Mock.params_code !! "state" = Some "s1" /\
  Mock.invalid_grant !! "error" = Some (PStr "invalid_grant") /\
  fst (process_auth_redirect Mock.rejecting Mock.aad Mock.params_code "next" None None
         Mock.ctx_s1) = Return (Action "next") /\
  is_cleared (snd (process_auth_redirect Mock.rejecting Mock.aad Mock.params_code
                     "next" None None Mock.ctx_s1)).
Proof.
  assert (H1 : Mock.params_code !! "state" = Some "s1") by reflexivity.
  assert (H2 : Mock.invalid_grant !! "error" = Some (PStr "invalid_grant"))
    by reflexivity.
  split; [exact H1|]. split; [exact H2|].
  exact (proj2 (redirect_token_error_clears_session Mock.rejecting Mock.aad
                  Mock.params_code "next" None None Mock.ctx_s1 "s1"
                  Mock.invalid_grant (PStr "invalid_grant")
                  H1 eq_refl eq_refl eq_refl eq_refl H2)).
Defined.

Lemma redirect_unsupported_response_type_witness :
  String.eqb (resolved_response_type Mock.aad (Some "id_token")) ResponseType_CODE
  = false /\
  fst (process_auth_redirect Mock.client Mock.aad Mock.params_code "next" None
         (Some "id_token") Mock.ctx_s1) = Return (Action "next") /\
  is_cleared (snd (process_auth_redirect Mock.client Mock.aad Mock.params_code "next"
                     None (Some "id_token") Mock.ctx_s1)).
Proof.
  assert (H : String.eqb (resolved_response_type Mock.aad (Some "id_token"))
                ResponseType_CODE = false) by reflexivity.
  split; [exact H|].
  exact (proj2 (redirect_unsupported_response_type Mock.client Mock.aad
                  Mock.params_code "next" None (Some "id_token") Mock.ctx_s1 "s1"
                  eq_refl eq_refl eq_refl H)).
Defined.

(** Scenario 2 locks the guard; scenario 1 opens it. *)
Lemma guard_follows_handshake_witness :
  login_required (fun n : nat => S n) 1
    (snd (process_auth_redirect Mock.client Mock.aad Mock.params_wrong_state "next"
            None None Mock.ctx_signed_in)) = inl NotAuthenticatedError /\
  (login_required (fun n : nat => S n) 1
     (snd (process_auth_redirect Mock.client Mock.aad Mock.params_code "next"
             None None Mock.ctx_s1)) = inr 2 /\
   exists s, Mock.params_code !! "state" = Some s /\ state Mock.ctx_s1 = Some s).
Proof.
  assert (H1 : is_raise (fst (process_auth_redirect_body Mock.client Mock.aad
                                Mock.params_wrong_state "next" None None
                                Mock.ctx_signed_in)) = true)
    by (vm_compute; reflexivity).
  assert (H2 : login_required (fun n : nat => S n) 1
                 (snd (process_auth_redirect Mock.client Mock.aad Mock.params_code
                         "next" None None Mock.ctx_s1)) = inr 2)
    by (vm_compute; reflexivity).
  split.
  - exact (proj1 (guard_follows_handshake Mock.client Mock.aad (fun n : nat => S n) 1
                    Mock.params_wrong_state "next" None None Mock.ctx_signed_in) H1).
  - split; [exact H2|].
    exact (proj2 (proj2 (guard_follows_handshake Mock.client Mock.aad
                           (fun n : nat => S n) 1 Mock.params_code "next" None None
                           Mock.ctx_s1) 2 H2)).
Defined.

Lemma verify_nonce_single_use_witness :
  (fst (_verify_nonce {[ "nonce" := "n1" ]} Mock.ctx_s1) = Return tt /\
   nonce (snd (_verify_nonce {[ "nonce" := "n1" ]} Mock.ctx_s1)) = None) /\
  (exists msg, fst (_verify_nonce {[ "nonce" := "other" ]} Mock.ctx_s1)
               = Raise (AuthSecurityError msg)) /\
  snd (_verify_nonce {[ "nonce" := "other" ]} Mock.ctx_s1) = Mock.ctx_s1.
Proof.
  pose proof (proj1 (verify_nonce_single_use {[ "nonce" := "n1" ]} Mock.ctx_s1)
                "n1" eq_refl eq_refl) as (Ha & Hb & _).
  assert (Hne : ({[ "nonce" := "other" ]} : gmap string string) !! "nonce"
                <> nonce Mock.ctx_s1) by (vm_compute; discriminate).
  split; [split; [exact Ha | exact Hb]|].
  exact (proj2 (verify_nonce_single_use {[ "nonce" := "other" ]} Mock.ctx_s1)
               (or_intror Hne)).
Defined.

Lemma generated_state_verifies_once_witness :
  Mock.params_code !! "state" = Some "s1" /\
  fst (_verify_state Mock.params_code
         (snd (_generate_and_append_state_to_context_and_request "s1" ∅
                 Mock.ctx_signed_in))) = Return tt.
Proof.
  assert (H : Mock.params_code !! "state" = Some "s1") by reflexivity.
  split; [exact H|].
  exact (proj1 (proj2 (proj2 (generated_state_verifies_once "s1" ∅ Mock.params_code
                                Mock.ctx_signed_in H)))).
Defined.

Lemma generated_nonce_verifies_once_witness :
  ({[ "nonce" := "n7" ]} : gmap string string) !! "nonce" = Some "n7" /\
  fst (_verify_nonce {[ "nonce" := "n7" ]}
         (snd (_generate_and_append_nonce_to_context_and_request "n7" ∅
                 Mock.ctx_signed_in))) = Return tt.
Proof.
  assert (H : ({[ "nonce" := "n7" ]} : gmap string string) !! "nonce" = Some "n7")
    by reflexivity.
  split; [exact H|].
  exact (proj1 (proj2 (proj2 (generated_nonce_verifies_once "n7" ∅ {[ "nonce" := "n7" ]}
                                Mock.ctx_signed_in H)))).
Defined.

Lemma regenerated_state_replaces_previous_witness :
  "s1" <> "s2" /\
  exists msg,
    fst (_verify_state Mock.params_code
           (snd (_generate_and_append_state_to_context_and_request "s2" ∅
                   (snd (_generate_and_append_state_to_context_and_request "s1" ∅
                           Mock.ctx_signed_in)))))
    = Raise (AuthSecurityError msg).
Proof.
  assert (H : "s1" <> "s2") by discriminate.
  split; [exact H|].
  exact (proj1 (regenerated_state_replaces_previous "s1" "s2" ∅ ∅ Mock.params_code
                  Mock.ctx_signed_in H eq_refl)).
Defined.

Lemma get_auth_url_keeps_session_witness :
  String.eqb (authority_type Mock.aad) AuthorityType_B2C = false /\
  snd (get_auth_url Mock.client Mock.aad None (Some "/b2c_1_reset") PNone ∅
         Mock.ctx_s1) = Mock.ctx_s1.
Proof.
  assert (H : String.eqb (authority_type Mock.aad) AuthorityType_B2C = false)
    by reflexivity.
  split; [exact H|].
  pose proof (get_auth_url_keeps_session Mock.client Mock.aad None
                (Some "/b2c_1_reset") PNone ∅ Mock.ctx_s1)
    as (_ & _ & _ & _ & _ & _ & _ & _ & Hstd).
  exact (Hstd H).
Defined.

Lemma get_auth_url_uses_given_policy_witness :
  String.eqb (authority_type Mock.b2c) AuthorityType_B2C = true /\
  get_auth_url Mock.client Mock.b2c None (Some "/b2c_1_reset") PNone ∅ Mock.ctx_s1
  = (Return "https://login.example.com/tenant/b2c_1_reset/oauth2/v2.0/authorize",
     set_last_used_b2c_policy (Some "/b2c_1_reset") Mock.ctx_s1).
Proof.
  assert (H : String.eqb (authority_type Mock.b2c) AuthorityType_B2C = true)
    by reflexivity.
  assert (Hp : "/b2c_1_reset" <> "") by discriminate.
  split; [exact H|].
  destruct (get_auth_url_uses_given_policy Mock.client Mock.b2c None "/b2c_1_reset"
              PNone ∅ Mock.ctx_s1 H Hp) as [d Hd].
  rewrite Hd. vm_compute. reflexivity.
Defined.

Lemma client_factory_arguments_witness :
  exists client_config,
    _client_factory Mock.client Mock.aad (PCache "cache") (of_opt None)
      {[ "authority" := PStr "https://other.example.com" ]}
    = Return client_config /\
    client_config !! "authority" = Some (PStr "https://other.example.com") /\
    client_config !! "token_cache" = Some (PCache "cache") /\
    client_config !! "client_id" = Some (PStr "app").
Proof.
  destruct (client_factory_arguments Mock.client Mock.aad (PCache "cache") None
              {[ "authority" := PStr "https://other.example.com" ]})
    as (cc & Heq & Hkw & _ & Htc & Hrest).
  exists cc. split; [exact Heq|].
  split; [exact (Hkw "authority" _ eq_refl)|].
  split; [exact (Htc eq_refl)|].
  refine (eq_trans (Hrest "client_id" _ _ eq_refl) eq_refl); discriminate.
Defined.

Lemma get_auth_url_settings_precedence_witness :
  ({[ "login_hint" := PStr "alice" ]} : gmap string pyval) !! "redirect_uri" = None /\
  (exists d cache' policy',
     fst (get_auth_url Mock.client Mock.b2c_redirect
            (Some "https://app.example.com/redirect") None PNone
            {[ "login_hint" := PStr "alice" ]} Mock.ctx_s1)
     = match _client_factory Mock.client Mock.b2c_redirect cache' policy' ∅ with
       | Return client => get_authorization_request_url Mock.client client d
       | Raise e => Raise e
       end /\
     d !! "redirect_uri" = Some (PStr "https://app.example.com/redirect") /\
     d !! "login_hint" = Some (PStr "alice") /\
     d !! "scopes" = Some (PList [PStr "User.Read"])) /\
  (exists d cache' policy',
     fst (get_auth_url Mock.client Mock.b2c_redirect None None PNone
            {[ "login_hint" := PStr "alice" ]} Mock.ctx_s1)
     = match _client_factory Mock.client Mock.b2c_redirect cache' policy' ∅ with
       | Return client => get_authorization_request_url Mock.client client d
       | Raise e => Raise e
       end /\
     d !! "redirect_uri" = Some (PStr "https://app.example.com/configured")).
Proof.
  assert (H1 : ({[ "login_hint" := PStr "alice" ]} : gmap string pyval)
               !! "redirect_uri" = None) by reflexivity.
  assert (H2 : ({[ "login_hint" := PStr "alice" ]} : gmap string pyval)
               !! "b2c_policy" = None) by reflexivity.
  assert (H3 : ({[ "login_hint" := PStr "alice" ]} : gmap string pyval)
               !! "token_cache" = None) by reflexivity.
  split; [exact H1|]. split.
  - destruct (get_auth_url_settings_precedence Mock.client Mock.b2c_redirect
                (Some "https://app.example.com/redirect") None PNone
                {[ "login_hint" := PStr "alice" ]} Mock.ctx_s1 H1 H2 H3)
      as (d & c' & p' & Heq & Hr & Hkw & Hcfg).
    exists d, c', p'. split; [exact Heq|]. split; [exact Hr|].
    split.
    + apply Hkw; [discriminate | reflexivity].
    + refine (eq_trans (Hcfg "scopes" _ _ eq_refl) eq_refl); discriminate.
  - destruct (get_auth_url_settings_precedence Mock.client Mock.b2c_redirect
                None None PNone {[ "login_hint" := PStr "alice" ]} Mock.ctx_s1
                H1 H2 H3)
      as (d & c' & p' & Heq & Hr & _).
    exists d, c', p'. split; [exact Heq | exact Hr].
Defined.

Lemma sign_out_keeps_session_witness :
  exists url,
    sign_out (A := string) "/oauth2/v2.0/logout" Mock.b2c
      (Some "https://app.example.com/") None Mock.ctx_signed_in
    = (Return (Redirect url), Mock.ctx_signed_in) /\
    String.prefix "https://login.example.com/tenant/b2c_1_susi/oauth2/v2.0/logout" url
    = true.
Proof.
  destruct (sign_out_keeps_session (A := string) "/oauth2/v2.0/logout" Mock.b2c
              (Some "https://app.example.com/") None Mock.ctx_signed_in)
    as (url & Heq & Hpre & _).
  exists url. split; [exact Heq | exact Hpre].
Defined.

Lemma guard_after_sign_out_and_remove_user_witness :
  authenticated Mock.ctx_signed_in = true /\
  login_required (fun n : nat => S n) 1
    (snd (sign_out (A := string) "/oauth2/v2.0/logout" Mock.aad None None
            Mock.ctx_signed_in)) = inr 2.
Proof.
  assert (H : authenticated Mock.ctx_signed_in = true) by reflexivity.
  split; [exact H|].
  exact (proj2 (proj2 (guard_after_sign_out_and_remove_user (A := string)
                         (fun n : nat => S n) 1 "/oauth2/v2.0/logout" Mock.aad
                         None None Mock.ctx_signed_in)) H).
Defined.

Lemma silent_success_updates_context_witness :
  truthy Mock.alice = true /\
  Mock.token_result !! "error" = None /\
  fst (acquire_token_silently (Mock.silent (Some Mock.token_result)) Mock.aad
         PNone Mock.alice PNone PNone ∅ Mock.ctx_signed_in) = Return tt /\
  token_cache (snd (acquire_token_silently (Mock.silent (Some Mock.token_result))
                      Mock.aad PNone Mock.alice PNone PNone ∅ Mock.ctx_signed_in))
  = PCache "cache".
Proof.
  pose (kw := <["token_cache" := PCache "cache"]>
                (<["authority" := PStr "https://login.example.com/tenant"]>
                   (client_dict Mock.aad))).
  assert (Hc : _client_factory (Mock.silent (Some Mock.token_result)) Mock.aad
                 (py_or PNone (token_cache Mock.ctx_signed_in)) PNone ∅ = Return kw)
    by (vm_compute; reflexivity).
  assert (H1 : truthy Mock.alice = true) by reflexivity.
  assert (H2 : Mock.token_result !! "error" = None) by reflexivity.
  assert (H3 : forall claims, Mock.token_result !! "id_token_claims" = Some claims ->
                 exists d, claims = PDict d).
  { intros claims Hcl. vm_compute in Hcl. injection Hcl as <-. eexists; reflexivity. }
  split; [exact H1|]. split; [exact H2|].
  pose proof (silent_success_updates_context (Mock.silent (Some Mock.token_result))
                Mock.aad PNone Mock.alice PNone PNone ∅ Mock.ctx_signed_in kw
                Mock.token_result Hc H1 eq_refl H2 H3)
    as (Hf & _ & _ & _ & Ht & _).
  split; [exact Hf | exact Ht].
Defined.

Lemma silent_cache_miss_raises_type_error_witness :
  chosen_account (Mock.silent None)
    (<["token_cache" := PCache "cache"]>
       (<["authority" := PStr "https://login.example.com/tenant"]>
          (client_dict Mock.aad))) Mock.alice = Return Mock.alice /\
  acquire_token_silently (Mock.silent None) Mock.aad PNone Mock.alice PNone PNone ∅
    Mock.ctx_signed_in = (Raise TypeError, Mock.ctx_signed_in).
Proof.
  pose (kw := <["token_cache" := PCache "cache"]>
                (<["authority" := PStr "https://login.example.com/tenant"]>
                   (client_dict Mock.aad))).
  assert (Hc : _client_factory (Mock.silent None) Mock.aad
                 (py_or PNone (token_cache Mock.ctx_signed_in)) PNone ∅ = Return kw)
    by (vm_compute; reflexivity).
  assert (Ha : chosen_account (Mock.silent None) kw Mock.alice = Return Mock.alice)
    by reflexivity.
  split; [exact Ha|].
  exact (silent_cache_miss_raises_type_error (Mock.silent None) Mock.aad PNone
           Mock.alice PNone PNone ∅ Mock.ctx_signed_in kw Mock.alice Hc Ha eq_refl).
Defined.

Lemma process_result_partial_on_bad_claims_witness :
  ({[ "id_token_claims" := PStr "eyJ" ]} : gmap string pyval) !! "error" = None /\
  _process_result Mock.client {[ "id_token_claims" := PStr "eyJ" ]} PNone Mock.ctx_s1
  = (Raise AttributeError,
     set_id_token_claims (PStr "eyJ") (set_authenticated true Mock.ctx_s1)).
Proof.
  assert (H1 : ({[ "id_token_claims" := PStr "eyJ" ]} : gmap string pyval) !! "error"
               = None) by reflexivity.
  assert (H3 : forall d, PStr "eyJ" <> PDict d) by (intros d; discriminate).
  split; [exact H1|].
  exact (proj1 (process_result_partial_on_bad_claims Mock.client
                  {[ "id_token_claims" := PStr "eyJ" ]} PNone (PStr "eyJ")
                  Mock.ctx_s1 H1 eq_refl H3)).
Defined.

Lemma prepare_b2c_auth_strips_account_picker_witness :
  "/b2c_1_reset" <> b2c_susi Mock.b2c /\
  exists d',
    fst (prepare_b2c_auth Mock.b2c
           {[ "prompt" := PStr "select_account"; "login_hint" := PStr "alice" ]}
           (Some "/b2c_1_reset") Mock.ctx_s1) = Return (d', "/b2c_1_reset") /\
    d' !! Prompt_PARAM_KEY <> Some (PStr Prompt_SELECT_ACCOUNT) /\
    d' !! "login_hint" = Some (PStr "alice").
Proof.
  assert (H : "/b2c_1_reset" <> b2c_susi Mock.b2c) by (vm_compute; discriminate).
  split; [exact H|].
  destruct (prepare_b2c_auth_strips_account_picker Mock.b2c
              {[ "prompt" := PStr "select_account"; "login_hint" := PStr "alice" ]}
              (Some "/b2c_1_reset") Mock.ctx_s1)
    as (d' & p & Heq & Hkeep & _ & Hstrip).
  assert (Hp : p = "/b2c_1_reset").
  { assert (Hs : snd (d', p) = "/b2c_1_reset").
    { refine (match Heq in (_ = o) return
                      (match o with Return x => snd x = "/b2c_1_reset" | Raise _ => True end)
              with eq_refl => _ end).
      vm_compute. reflexivity. }
    exact Hs. }
  subst p. exists d'. split; [exact Heq|]. split; [exact (Hstrip H)|].
  refine (eq_trans (Hkeep "login_hint" _) eq_refl). discriminate.
Defined.
